(** * LICD: dynamic I2C address assignment (master poll cycle, slave listener)

    A shallow embedding of [licd.cpp] / [licd.h] (and of the split sources
    [licd_device_manager.cpp], [licd_device.cpp], [licd_wire_helper.h], which
    carry the same function bodies) together with the properties of the
    address-assignment protocol.

    Layout of the development:
    - integer casts and the protocol constants of [licd_globals.h] and
      [licd_commands.h];
    - [TwoWire], [Wire]: the Arduino two-wire transport, as far as the library
      calls it.
      The transport is not part of the library, so everything it delivers
      (transaction status, received bytes, clock readings) is an oracle [Bus];
    - [WireHelper], [LicDeviceManager], [LicDevice]: the library code.  Loops
      take fuel; a run that is out of fuel has no result;
    - the vocabulary of the statements and the example boards;
    - the properties: fuel monotonicity, what each function does with enough
      fuel, and the theorems on the protocol. *)

From Stdlib Require Import ZArith String.
From stdpp Require Import base tactics option list numbers.

Local Open Scope Z_scope.

(** ** Integer casts *)

Definition uint8 (x : Z) : Z := x mod 2 ^ 8.
Definition uint32 (x : Z) : Z := x mod 2 ^ 32.
Definition uint64 (x : Z) : Z := x mod 2 ^ 64.

(** ** Protocol constants ([licd_globals.h], [licd_commands.h]) *)

Definition LICD_LISTENER_ADDRESS : Z := 0x01.
Definition LICD_ADDRESS_SPACE : Z := 0x02.
Definition LICD_DEVICE_COUNT : Z := 126.

Definition LICD_COMMAND_UUID : Z := 0x01.
Definition LICD_COMMAND_ASSIGN : Z := 0x02.
Definition LICD_COMMAND_RETRY : Z := 0x03.

(** ** Function pointers handed to the transport

    [LicDeviceReceive] and [LicDeviceRequest] are C function pointers.  The
    only library function ever registered is the private static
    [LicDevice::ReceiveAddress]; every other pointer is application code,
    identified by a number. *)

Inductive LicDeviceReceive : Type :=
| fn_ReceiveAddress
| fn_app_receive (id : nat).

Inductive LicDeviceRequest : Type :=
| fn_app_request (id : nat).

(** ** The transport *)

Module TwoWire.

(** Everything a board does on the bus, on its serial console and with its
    timer, in program order. *)
Inductive Event : Type :=
| EvBegin (address : option Z)
| EvOnReceive (handler : option LicDeviceReceive)
| EvOnRequest (handler : option LicDeviceRequest)
| EvBeginTransmission (address : Z)
| EvWrite (b : Z)
| EvEndTransmission (status : Z)
| EvRequestFrom (address quantity : Z)
| EvDelay (ms : Z)
| EvSerialPrint (msg : string)
| EvApplication (id : nat) (byte_count : Z).

(** What the bus and the clock answer.  Each answer is indexed by how many
    answers of that sort were consumed before it. *)
Record Bus : Type := {
  endTransmission_status : nat → Z;
  requestFrom_bytes : nat → list Z;
  millis_at : nat → Z
}.

(** One board's [Wire] object, its console and timer. *)
Record State : Type := {
  rx : list Z;
  own_address : option Z;
  on_receive : option LicDeviceReceive;
  on_request : option LicDeviceRequest;
  n_end : nat;
  n_req : nat;
  n_millis : nat;
  log : list Event
}.

Definition set_rx (v : list Z) (s : State) : State :=
  {| rx := v; own_address := own_address s; on_receive := on_receive s;
     on_request := on_request s; n_end := n_end s; n_req := n_req s;
     n_millis := n_millis s; log := log s |}.

Definition emit (e : Event) (s : State) : State :=
  {| rx := rx s; own_address := own_address s; on_receive := on_receive s;
     on_request := on_request s; n_end := n_end s; n_req := n_req s;
     n_millis := n_millis s; log := log s ++ [e] |}.

(** A freshly reset board: nothing received, nothing registered. *)
Definition power_on : State :=
  {| rx := []; own_address := None; on_receive := None; on_request := None;
     n_end := 0; n_req := 0; n_millis := 0; log := [] |}.

End TwoWire.

(** ** Computations of the library

    A computation threads the board state; [None] stands for a loop that was
    still running when the fuel ran out. *)

Definition M (A : Type) : Type := TwoWire.State → option (A * TwoWire.State).

Global Instance M_ret : MRet M := λ A a s, Some (a, s).

Global Instance M_bind : MBind M := λ A B k m s,
  match m s with
  | Some (a, s') => k a s'
  | None => None
  end.

Definition out_of_fuel {A} : M A := λ _, None.

(** ** The calls the library makes on [Wire], [Serial] and the Arduino core *)

Module Wire.
Import TwoWire.

Section WithBus.
Variable bus : Bus.

(** [Wire.begin()] joins as master, [Wire.begin(address)] as a slave. *)
Definition begin (address : option Z) : M unit := λ s,
  Some (tt, emit (EvBegin address)
    {| rx := rx s; own_address := address; on_receive := on_receive s;
       on_request := on_request s; n_end := n_end s; n_req := n_req s;
       n_millis := n_millis s; log := log s |}).

Definition onReceive (h : option LicDeviceReceive) : M unit := λ s,
  Some (tt, emit (EvOnReceive h)
    {| rx := rx s; own_address := own_address s; on_receive := h;
       on_request := on_request s; n_end := n_end s; n_req := n_req s;
       n_millis := n_millis s; log := log s |}).

Definition onRequest (h : option LicDeviceRequest) : M unit := λ s,
  Some (tt, emit (EvOnRequest h)
    {| rx := rx s; own_address := own_address s; on_receive := on_receive s;
       on_request := h; n_end := n_end s; n_req := n_req s;
       n_millis := n_millis s; log := log s |}).

Definition beginTransmission (address : Z) : M unit := λ s,
  Some (tt, emit (EvBeginTransmission address) s).

Definition write (b : Z) : M unit := λ s,
  Some (tt, emit (EvWrite (uint8 b)) s).

(** [uint8_t endTransmission()]: 0 is success, 1..4 are the errors
    [DoPollDevice] reports. *)
Definition endTransmission : M Z := λ s,
  let status := uint8 (endTransmission_status bus (n_end s)) in
  Some (status, emit (EvEndTransmission status)
    {| rx := rx s; own_address := own_address s; on_receive := on_receive s;
       on_request := on_request s; n_end := S (n_end s); n_req := n_req s;
       n_millis := n_millis s; log := log s |}).

(** [requestFrom] replaces the receive buffer by what the addressed slave
    sent. *)
Definition requestFrom (address quantity : Z) : M unit := λ s,
  Some (tt, emit (EvRequestFrom address quantity)
    {| rx := requestFrom_bytes bus (n_req s); own_address := own_address s;
       on_receive := on_receive s; on_request := on_request s;
       n_end := n_end s; n_req := S (n_req s); n_millis := n_millis s;
       log := log s |}).

(** [int available()]: bytes left in the receive buffer. *)
Definition available : M Z := λ s, Some (Z.of_nat (length (rx s)), s).

(** [int read()]: the next byte, or -1 when the buffer is empty. *)
Definition read : M Z := λ s,
  match rx s with
  | [] => Some (-1, s)
  | b :: rest => Some (uint8 b, set_rx rest s)
  end.

End WithBus.
End Wire.

Module Serial.
Import TwoWire.

Definition print (msg : string) : M unit := λ s,
  Some (tt, emit (EvSerialPrint msg) s).

End Serial.

Section ArduinoCore.
Import TwoWire.
Variable bus : Bus.

(** [unsigned long millis()]. *)
Definition millis : M Z := λ s,
  Some (uint32 (millis_at bus (n_millis s)),
    {| rx := rx s; own_address := own_address s; on_receive := on_receive s;
       on_request := on_request s; n_end := n_end s; n_req := n_req s;
       n_millis := S (n_millis s); log := log s |}).

Definition delay (ms : Z) : M unit := λ s, Some (tt, emit (EvDelay ms) s).

End ArduinoCore.

(** ** [WireHelper] ([licd_wire_helper.h])

    A typed payload [T* data] is the byte buffer it occupies; [sizeof_T]
    stands for [sizeof( T )].  [licd.h] carries an older copy of the same
    templates in which [wait] answers [true] on a timeout and [read] tests
    [wait( timeout )] without the negation; the two copies of [read] agree. *)

Module WireHelper.

Section WithBus.
Variable bus : TwoWire.Bus.

Fixpoint wait_loop (fuel : nat) (sizeof_T timeout start_time : Z) : M bool :=
  match fuel with
  | O => out_of_fuel
  | S fuel =>
    n ← Wire.available;
    if n <? sizeof_T then
      now ← millis bus;
      if timeout <? uint64 (now - start_time) then
        Serial.print "[ERR] Wire : Waiting for data as timeout or not enough data as been available.";;
        mret false
      else wait_loop fuel sizeof_T timeout start_time
    else mret true
  end.

Definition wait (fuel : nat) (sizeof_T timeout : Z) : M bool :=
  start_time ← millis bus;
  wait_loop fuel sizeof_T timeout start_time.

Fixpoint read_loop (fuel : nat) (data_size : Z) (byte_ptr : list Z)
    (data_offset : Z) : M (list Z * Z) :=
  match fuel with
  | O => out_of_fuel
  | S fuel =>
    n ← Wire.available;
    if negb (n =? 0) && (data_offset <? data_size) then
      b ← Wire.read;
      read_loop fuel data_size
        (<[Z.to_nat data_offset := uint8 b]> byte_ptr) (data_offset + 1)
    else mret (byte_ptr, data_offset)
  end.

Definition read (fuel : nat) (sizeof_T : Z) (data : list Z)
    (count timeout : Z) : M (bool * list Z) :=
  if count =? 0 then mret (false, data)
  else
    ready ← wait fuel sizeof_T timeout;
    if negb ready then mret (false, data)
    else
      let data_size := uint32 (sizeof_T * count) in
      '(data', data_offset) ← read_loop fuel data_size data 0;
      mret (data_offset =? data_size, data').

End WithBus.

(** [write] sends the bytes of [count] elements, first byte first.  The
    buffer [data] is the memory behind the pointer; the properties take it
    to be [sizeof( T ) * count] bytes long, as the caller owes. *)
Fixpoint write_loop (fuel : nat) (data_size : Z) (byte_ptr : list Z)
    (data_offset : Z) : M unit :=
  match fuel with
  | O => out_of_fuel
  | S fuel =>
    if data_offset <? data_size then
      Wire.write (byte_ptr !!! Z.to_nat data_offset);;
      write_loop fuel data_size byte_ptr (data_offset + 1)
    else mret tt
  end.

Definition write (fuel : nat) (sizeof_T : Z) (data : list Z) (count : Z) : M unit :=
  if count =? 0 then mret tt
  else
    let data_size := uint32 (sizeof_T * count) in
    write_loop fuel data_size data 0.

End WireHelper.

(** ** [LicDeviceHeader] ([licd_device_manager.h]) *)

Record LicDeviceHeader : Type := {
  uuid : Z;
  flags : Z
}.

Global Instance LicDeviceHeader_inhabited : Inhabited LicDeviceHeader :=
  populate {| uuid := 0; flags := 0 |}.

Definition sizeof_LicDeviceHeader : Z := 8.

(** The object representation: two 32-bit words, least significant byte
    first (the byte order of the Arduino targets). *)
Definition le32 (b0 b1 b2 b3 : Z) : Z :=
  b0 + 2 ^ 8 * b1 + 2 ^ 16 * b2 + 2 ^ 24 * b3.

Definition byte_at (x : Z) (i : Z) : Z := (x / 2 ^ (8 * i)) mod 2 ^ 8.

Definition header_bytes (h : LicDeviceHeader) : list Z :=
  [byte_at (uuid h) 0; byte_at (uuid h) 1; byte_at (uuid h) 2; byte_at (uuid h) 3;
   byte_at (flags h) 0; byte_at (flags h) 1; byte_at (flags h) 2; byte_at (flags h) 3].

Definition header_of_bytes (m : list Z) : LicDeviceHeader :=
  {| uuid := le32 (m !!! 0%nat) (m !!! 1%nat) (m !!! 2%nat) (m !!! 3%nat);
     flags := le32 (m !!! 4%nat) (m !!! 5%nat) (m !!! 6%nat) (m !!! 7%nat) |}.

(** ** [LicDeviceManager] ([licd_device_manager.cpp]) *)

Module LicDeviceManager.

Record t : Type := {
  m_retry_count : Z;
  m_retry_delay : Z;
  m_wait_delay : Z;
  m_devices : list LicDeviceHeader
}.

Definition set_devices (devices : list LicDeviceHeader) (this : t) : t :=
  {| m_retry_count := m_retry_count this; m_retry_delay := m_retry_delay this;
     m_wait_delay := m_wait_delay this; m_devices := devices |}.

(** The constructor; the defaults are 5, 30 and 15. *)
Definition new (retry_count retry_delay wait_delay : Z) : M t :=
  Wire.begin None;;
  mret {| m_retry_count := uint32 retry_count;
          m_retry_delay := uint32 retry_delay;
          m_wait_delay := uint32 wait_delay;
          m_devices := replicate (Z.to_nat LICD_DEVICE_COUNT)
                         {| uuid := 0; flags := 0 |} |}.

Section WithBus.
Variable bus : TwoWire.Bus.

(** The [for] loop of [DoPollDevice]; it answers the last [error]. *)
Fixpoint DoPollDevice_loop (fuel : nat) (this : t) (error retry_count : Z) : M Z :=
  match fuel with
  | O => out_of_fuel
  | S fuel =>
    if (0 <? error) && (retry_count <? m_retry_count this) then
      Wire.beginTransmission LICD_LISTENER_ADDRESS;;
      Wire.write LICD_COMMAND_UUID;;
      error ← Wire.endTransmission bus;
      delay (m_retry_delay this);;
      DoPollDevice_loop fuel this error (uint32 (retry_count + 1))
    else mret error
  end.

Definition DoPollDevice (fuel : nat) (this : t) : M bool :=
  error ← DoPollDevice_loop fuel this 5 0;
  (if error =? 1 then
     Serial.print "[ERR] Wire : Data too long to fit in transmit buffer."
   else if error =? 2 then
     Serial.print "[ERR] Wire : Received NACK on transmit of address."
   else if error =? 3 then
     Serial.print "[ERR] Wire : Received NACK on transmit of data."
   else if error =? 4 then
     Serial.print "[ERR] Wire : Undefined error behavior."
   else mret tt);;
  mret (error =? 0).

(** The [while] loop of [RegisterDevice].  [continue] jumps back to the
    loop test with [new_address] and [address_offset] as they are. *)
Fixpoint RegisterDevice_loop (fuel : nat) (header : LicDeviceHeader)
    (devices : list LicDeviceHeader) (new_address address_offset : Z)
    : option (Z * list LicDeviceHeader) :=
  match fuel with
  | O => None
  | S fuel =>
    if (new_address =? LICD_LISTENER_ADDRESS)
       && (address_offset <? LICD_DEVICE_COUNT) then
      if 0 <? uuid (devices !!! Z.to_nat address_offset) then
        RegisterDevice_loop fuel header devices new_address address_offset
      else
        RegisterDevice_loop fuel header
          (<[Z.to_nat address_offset := header]> devices)
          (uint8 (LICD_ADDRESS_SPACE + address_offset)) address_offset
    else Some (new_address, devices)
  end.

Definition RegisterDevice (fuel : nat) (this : t) : M (Z * t) :=
  let header := header_bytes {| uuid := 0; flags := 0 |} in
  let new_address := LICD_LISTENER_ADDRESS in
  delay (m_wait_delay this);;
  Wire.requestFrom bus LICD_LISTENER_ADDRESS sizeof_LicDeviceHeader;;
  delay (m_wait_delay this);;
  '(ok, header) ← WireHelper.read bus fuel sizeof_LicDeviceHeader header 1 150;
  if ok : bool then
    match RegisterDevice_loop fuel (header_of_bytes header) (m_devices this)
            new_address 0 with
    | Some (new_address, devices) => mret (new_address, set_devices devices this)
    | None => out_of_fuel
    end
  else
    Serial.print "[ERR] Wire : Data too short or too long to fit the transmit buffer.";;
    mret (new_address, this).

Definition PollDevice (fuel : nat) (this : t) : M t :=
  found ← DoPollDevice fuel this;
  if negb found then mret this
  else
    '(new_address, this) ← RegisterDevice fuel this;
    Wire.beginTransmission LICD_LISTENER_ADDRESS;;
    (if LICD_LISTENER_ADDRESS <? new_address then
       Wire.write LICD_COMMAND_ASSIGN;;
       Wire.write new_address
     else Wire.write LICD_COMMAND_RETRY);;
    Wire.endTransmission bus;;
    mret this.

End WithBus.
End LicDeviceManager.

(** ** [LicDevice] ([licd_device.cpp]) *)

Module LicDevice.

Record t : Type := {
  m_address : Z;
  m_receive : option LicDeviceReceive;
  m_request : option LicDeviceRequest
}.

Definition Create (this : t) (receive_handler : option LicDeviceReceive)
    (request_handler : option LicDeviceRequest) : M unit :=
  Wire.begin (Some (m_address this));;
  Wire.onReceive receive_handler;;
  Wire.onRequest request_handler.

(** The constructor: the device listens on the shared address with the
    library's own receive handler and no request handler. *)
Definition new (receive_handler : option LicDeviceReceive)
    (request_handler : option LicDeviceRequest) : M t :=
  let this := {| m_address := LICD_LISTENER_ADDRESS;
                 m_receive := receive_handler;
                 m_request := request_handler |} in
  Create this (Some fn_ReceiveAddress) None;;
  mret this.

(** [ReceiveAddress] is static in the source and reads the members of the
    one device of the board; that device is [this]. *)
Definition ReceiveAddress (this : t) (byte_count : Z) : M t :=
  n ← Wire.available;
  this ← (if negb (n =? 0) then
            c ← Wire.read;
            let command := uint8 c in
            if command =? LICD_COMMAND_UUID then
              Wire.write 0x00;;
              mret this
            else if command =? LICD_COMMAND_ASSIGN then
              a ← Wire.read;
              let this := {| m_address := uint8 a;
                             m_receive := m_receive this;
                             m_request := m_request this |} in
              Create this (m_receive this) (m_request this);;
              mret this
            else if command =? LICD_COMMAND_RETRY then mret this
            else mret this
          else mret this);
  delay 30;;
  mret this.

Definition GetIsValid (this : t) : bool :=
  LICD_LISTENER_ADDRESS <? m_address this.

Definition GetAddress (this : t) : Z := m_address this.

(** *** The board around the device

    The transport calls the registered receive handler when a master writes
    to the address the board answers on.  The received bytes replace the
    receive buffer.  Application handlers are outside the library: they
    cannot name the private [ReceiveAddress] nor reach [m_address], so a
    call of one leaves the device and the registrations alone. *)
Definition app_receive (id : nat) (byte_count : Z) : M unit := λ s,
  Some (tt, TwoWire.emit (TwoWire.EvApplication id byte_count) (TwoWire.set_rx [] s)).

Definition on_bus_write (this : t) (target : Z) (payload : list Z) : M t := λ s,
  if decide (TwoWire.own_address s = Some target) then
    let byte_count := Z.of_nat (length payload) in
    let s := TwoWire.set_rx payload s in
    match TwoWire.on_receive s with
    | Some fn_ReceiveAddress => ReceiveAddress this byte_count s
    | Some (fn_app_receive id) => (app_receive id byte_count;; mret this) s
    | None => Some (this, s)
    end
  else Some (this, s).

(** A session: the bus writes a board sees after its device was built. *)
Fixpoint session (this : t) (writes : list (Z * list Z)) : M t :=
  match writes with
  | [] => mret this
  | (target, payload) :: writes =>
    this ← on_bus_write this target payload;
    session this writes
  end.

End LicDevice.

Import TwoWire.

(** * Vocabulary of the statements *)

(** ** Fuel *)

Definition fuel_monotone {A} (f : nat → M A) : Prop :=
  ∀ fuel fuel' s r, (fuel ≤ fuel')%nat → f fuel s = Some r → f fuel' s = Some r.

(** ** Board states reached by the library *)

(** [k] more clock readings were taken. *)
Definition tick (k : nat) (s : State) : State :=
  {| rx := rx s; own_address := own_address s; on_receive := on_receive s;
     on_request := on_request s; n_end := n_end s; n_req := n_req s;
     n_millis := k + n_millis s; log := log s |}.

Definition emits (evs : list Event) (s : State) : State :=
  foldl (λ s e, emit e s) s evs.

(** Milliseconds a wait entered in state [s] sees elapsed at its poll
    number [j] (the clock reading [S j] after the one taken on entry). *)
Definition elapsed (bus : Bus) (s : State) (j : nat) : Z :=
  uint64 (uint32 (millis_at bus (S j + n_millis s))
          - uint32 (millis_at bus (n_millis s))).

(** ** What [WireHelper::read] reports and stores *)

Definition wait_timeout_message : string :=
  "[ERR] Wire : Waiting for data as timeout or not enough data as been available.".

(** The bytes [read] stores through [byte_ptr], from [data_offset] on. *)
Fixpoint store_bytes (byte_ptr : list Z) (data_offset : nat) (bs : list Z) : list Z :=
  match bs with
  | [] => byte_ptr
  | b :: bs => store_bytes (<[data_offset := uint8 b]> byte_ptr) (S data_offset) bs
  end.

(** ** What [DoPollDevice] does on the bus *)

Definition status_at (bus : Bus) (k : nat) : Z :=
  uint8 (endTransmission_status bus k).

(** One probe: a transaction to the listener address carrying the UUID
    query, then the retry delay. *)
Definition probe_events (retry_delay status : Z) : list Event :=
  [EvBeginTransmission LICD_LISTENER_ADDRESS; EvWrite LICD_COMMAND_UUID;
   EvEndTransmission status; EvDelay retry_delay].

Definition probes (bus : Bus) (retry_delay : Z) (first m : nat) : list Event :=
  flat_map (λ k, probe_events retry_delay (status_at bus k)) (seq first m).

(** The board after [m] probes. *)
Definition probed (bus : Bus) (retry_delay : Z) (m : nat) (s : State) : State :=
  {| rx := rx s; own_address := own_address s; on_receive := on_receive s;
     on_request := on_request s; n_end := m + n_end s; n_req := n_req s;
     n_millis := n_millis s;
     log := log s ++ probes bus retry_delay (n_end s) m |}.

(** What [DoPollDevice] prints for the last status. *)
Definition DoPollDevice_report (error : Z) : list Event :=
  if error =? 1 then
    [EvSerialPrint "[ERR] Wire : Data too long to fit in transmit buffer."]
  else if error =? 2 then
    [EvSerialPrint "[ERR] Wire : Received NACK on transmit of address."]
  else if error =? 3 then
    [EvSerialPrint "[ERR] Wire : Received NACK on transmit of data."]
  else if error =? 4 then
    [EvSerialPrint "[ERR] Wire : Undefined error behavior."]
  else [].

Definition is_serial_print (e : Event) : Prop :=
  match e with EvSerialPrint _ => True | _ => False end.

(** The outcome of the [for] loop with [n] attempts left: it made [m ≤ n]
    probes, only the last of which may have been acknowledged. *)
Definition probe_outcome (bus : Bus) (n : nat) (error : Z) (s : State) (m : nat)
    (error' : Z) : Prop :=
  (m ≤ n)%nat
  ∧ 0 ≤ error'
  ∧ (m = 0%nat → error' = error)
  ∧ (∀ k, (k < m)%nat → status_at bus (n_end s + k) = 0 → S k = m)
  ∧ (error' = 0 ↔ ∃ k, (k < m)%nat ∧ status_at bus (n_end s + k) = 0)
  ∧ (error' ≠ 0 → m = n).

(** ** What [RegisterDevice] does on the bus *)

Definition pull_failed_message : string :=
  "[ERR] Wire : Data too short or too long to fit the transmit buffer.".

(** The header [RegisterDevice] decodes from the answer to request [k]. *)
Definition pulled_header (bus : Bus) (k : nat) : LicDeviceHeader :=
  header_of_bytes (uint8 <$> take 8 (requestFrom_bytes bus k)).

(** The board once the header was requested: both waits are over and the
    slave's answer sits in the receive buffer. *)
Definition requested (bus : Bus) (wait_delay : Z) (s : State) : State :=
  {| rx := requestFrom_bytes bus (n_req s); own_address := own_address s;
     on_receive := on_receive s; on_request := on_request s;
     n_end := n_end s; n_req := S (n_req s); n_millis := n_millis s;
     log := log s ++ [EvDelay wait_delay;
                      EvRequestFrom LICD_LISTENER_ADDRESS sizeof_LicDeviceHeader;
                      EvDelay wait_delay] |}.

(** The closing transaction of a cycle: the command bytes sent to the
    listener address. *)
Definition response_events (command : list Z) (status : Z) : list Event :=
  EvBeginTransmission LICD_LISTENER_ADDRESS
    :: (EvWrite <$> command) ++ [EvEndTransmission status].

(** The header request between its two waits. *)
Definition pull_events (wait_delay : Z) : list Event :=
  [EvDelay wait_delay;
   EvRequestFrom LICD_LISTENER_ADDRESS sizeof_LicDeviceHeader;
   EvDelay wait_delay].

(** ** The polling loop of the application

    The sketch calls [PollDevice] once per tick; [fuels] gives each call
    its own fuel. *)
Fixpoint poll_cycles (bus : Bus) (fuels : list nat) (this : LicDeviceManager.t)
    : M LicDeviceManager.t :=
  match fuels with
  | [] => mret this
  | fuel :: fuels =>
    this ← LicDeviceManager.PollDevice bus fuel this;
    poll_cycles bus fuels this
  end.

(** What a manager keeps through any number of returning cycles. *)
Definition same_but_slot_0 (this this' : LicDeviceManager.t) : Prop :=
  LicDeviceManager.m_retry_count this' = LicDeviceManager.m_retry_count this
  ∧ LicDeviceManager.m_retry_delay this' = LicDeviceManager.m_retry_delay this
  ∧ LicDeviceManager.m_wait_delay this' = LicDeviceManager.m_wait_delay this
  ∧ length (LicDeviceManager.m_devices this') = length (LicDeviceManager.m_devices this)
  ∧ (∀ i, (0 < i)%nat →
       LicDeviceManager.m_devices this' !! i = LicDeviceManager.m_devices this !! i)
  ∧ (0 < uuid (LicDeviceManager.m_devices this !!! 0%nat) → this' = this).

(** ** Commands as the slave decodes them *)

(** The payload of a bus write starts with the ASSIGN command. *)
Definition is_ASSIGN (payload : list Z) : bool :=
  match payload with
  | c :: _ => uint8 c =? LICD_COMMAND_ASSIGN
  | [] => false
  end.

(** ** From the master's log to the slaves

    The bus writes a log amounts to: every transaction that was
    acknowledged (status 0), as the address it was opened for and the bytes
    written in it.  A transaction that was not acknowledged reaches no
    handler. *)
Fixpoint bus_writes_from (opened : option (Z * list Z)) (evs : list Event)
    : list (Z * list Z) :=
  match evs with
  | [] => []
  | EvBeginTransmission address :: evs => bus_writes_from (Some (address, [])) evs
  | EvWrite b :: evs =>
      bus_writes_from
        (match opened with
         | Some (address, payload) => Some (address, payload ++ [b])
         | None => None
         end) evs
  | EvEndTransmission status :: evs =>
      match opened with
      | Some w => if status =? 0 then w :: bus_writes_from None evs
                  else bus_writes_from None evs
      | None => bus_writes_from None evs
      end
  | _ :: evs => bus_writes_from opened evs
  end.

Definition bus_writes (evs : list Event) : list (Z * list Z) :=
  bus_writes_from None evs.

(** What a board logged after state [s], up to state [s']. *)
Definition logged_since (s s' : State) : list Event :=
  drop (length (log s)) (log s').

(** ** The allocation of the specification *)

(** The allocation the specification describes: the smallest index whose
    slot is free, as an address. *)
Fixpoint spec_first_free (devices : list LicDeviceHeader) (i : nat) : option nat :=
  match devices with
  | [] => None
  | d :: devices => if uuid d =? 0 then Some i else spec_first_free devices (S i)
  end.

Definition spec_allocate (devices : list LicDeviceHeader) : option Z :=
  (λ i, LICD_ADDRESS_SPACE + Z.of_nat i) <$> spec_first_free devices 0.

(** ** The two states of a slave *)

(** While the library's handler is registered the device still listens;
    once an application handler (or none) is registered, bus writes no
    longer reach the library. *)
Definition listening (this : LicDevice.t) (s : State) : Prop :=
  on_receive s = Some fn_ReceiveAddress
  ∧ LicDevice.m_address this = LICD_LISTENER_ADDRESS.

Definition released (this : LicDevice.t) (s : State) : Prop :=
  on_receive s ≠ Some fn_ReceiveAddress.

(** ** Example boards *)

(** A manager built with the default arguments, nothing registered yet. *)
Definition default_manager : LicDeviceManager.t :=
  {| LicDeviceManager.m_retry_count := 5;
     LicDeviceManager.m_retry_delay := 30;
     LicDeviceManager.m_wait_delay := 15;
     LicDeviceManager.m_devices := replicate 126 {| uuid := 0; flags := 0 |} |}.

(** A clock that advances 100 ms between two readings. *)
Definition slow_clock (k : nat) : Z := 100 * Z.of_nat k.

(** One slave with identity [{uuid: 0x1234ABCD, flags: 0}] acknowledges
    every transaction and answers every request with its 8-byte header. *)
Definition bus_one_slave : Bus :=
  {| endTransmission_status := λ _, 0;
     requestFrom_bytes := λ _, header_bytes {| uuid := 0x1234ABCD; flags := 0 |};
     millis_at := slow_clock |}.

(** The probe is acknowledged at the third attempt; only 5 of the 8 header
    bytes arrive. *)
Definition bus_short_answer : Bus :=
  {| endTransmission_status := λ k, if (k <? 2)%nat then 2 else 0;
     requestFrom_bytes := λ _, [0xCD; 0xAB; 0x34; 0x12; 0x00];
     millis_at := slow_clock |}.


(** Two slaves present themselves one after the other: the first header
    request is answered by a slave that reports [uuid = 0], every later one
    by the slave of [bus_one_slave]. *)
Definition bus_zero_then_one : Bus :=
  {| endTransmission_status := λ _, 0;
     requestFrom_bytes := λ k,
       match k with
       | O => header_bytes {| uuid := 0; flags := 7 |}
       | S _ => header_bytes {| uuid := 0x1234ABCD; flags := 0 |}
       end;
     millis_at := slow_clock |}.

(** The registry after the slave of [bus_one_slave] was registered: slot 0
    holds its header, slots 1..125 are free. *)
Definition registry_one : list LicDeviceHeader :=
  <[0%nat := {| uuid := 0x1234ABCD; flags := 0 |}]>
    (LicDeviceManager.m_devices default_manager).

(** A registry whose free slots are exactly 2, 5 and 9. *)
Definition registry_259 : list LicDeviceHeader :=
  (λ i : nat, {| uuid := if decide (i ∈ [2; 5; 9]%nat) then 0
                         else 0xD0 + Z.of_nat i;
                 flags := 0 |}) <$> seq 0 126.

(** A registry with all 126 slots occupied. *)
Definition registry_full : list LicDeviceHeader :=
  (λ i : nat, {| uuid := 0xD0 + Z.of_nat i; flags := 0 |}) <$> seq 0 126.

Definition manager_with (devices : list LicDeviceHeader) : LicDeviceManager.t :=
  LicDeviceManager.set_devices devices default_manager.

(** * Properties *)

(** ** Running computations *)

Ltac unfold_M :=
  unfold mbind, mret, M_bind, M_ret, out_of_fuel,
    Wire.available, Wire.read, Wire.write, Wire.beginTransmission,
    Wire.endTransmission, Wire.requestFrom, Wire.begin, Wire.onReceive,
    Wire.onRequest, Serial.print, millis, delay in *.

Ltac run := cbn; unfold_M; cbn.

Lemma bind_Some {A B} (m : M A) (k : A → M B) s r :
  (m ≫= k) s = Some r ↔ ∃ a s', m s = Some (a, s') ∧ k a s' = Some r.
Proof.
  unfold mbind, M_bind. destruct (m s) as [[a s']|]; split.
  - eauto.
  - by intros (? & ? & [= <- <-] & ?).
  - done.
  - by intros (? & ? & ? & ?).
Qed.

(** ** Fuel only bounds the number of loop iterations

    A run that returns with some fuel returns the same with more. *)

Lemma bind_monotone {A B} (f : nat → M A) (k : nat → A → M B) :
  fuel_monotone f → (∀ a, fuel_monotone (λ fuel, k fuel a)) →
  fuel_monotone (λ fuel, f fuel ≫= k fuel).
Proof.
  intros Hf Hk fuel fuel' s r Hle. rewrite !bind_Some.
  intros (a & s' & Hm & Hr). exists a, s'. split; [by eapply Hf|by eapply Hk].
Qed.

Section Monotone.
Variable bus : Bus.

Lemma wait_loop_monotone sizeof_T timeout start_time :
  fuel_monotone (λ fuel, WireHelper.wait_loop bus fuel sizeof_T timeout start_time).
Proof.
  intros fuel. induction fuel as [|fuel IH]; intros fuel' s r Hle; [done|].
  destruct fuel' as [|fuel']; [lia|]. run.
  destruct (_ <? sizeof_T); [|done].
  destruct (timeout <? _); [done|]. apply IH. lia.
Qed.

Lemma wait_monotone sizeof_T timeout :
  fuel_monotone (λ fuel, WireHelper.wait bus fuel sizeof_T timeout).
Proof.
  intros fuel fuel' s r Hle. unfold WireHelper.wait. run.
  by apply wait_loop_monotone.
Qed.

Lemma read_loop_monotone data_size byte_ptr data_offset :
  fuel_monotone (λ fuel, WireHelper.read_loop fuel data_size byte_ptr data_offset).
Proof.
  intros fuel. revert byte_ptr data_offset.
  induction fuel as [|fuel IH]; intros byte_ptr data_offset fuel' s r Hle; [done|].
  destruct fuel' as [|fuel']; [lia|]. run.
  destruct (negb _ && _); [|done].
  destruct (rx s); cbn; apply IH; lia.
Qed.

Lemma read_monotone sizeof_T data count timeout :
  fuel_monotone (λ fuel, WireHelper.read bus fuel sizeof_T data count timeout).
Proof.
  unfold WireHelper.read. destruct (count =? 0); [by intros ?????|].
  apply bind_monotone; [apply wait_monotone|].
  intros [|]; cbn [negb]; [|by intros ?????].
  apply (bind_monotone (λ fuel, WireHelper.read_loop fuel _ _ _)
           (λ _ x, let '(data', data_offset) := x in mret (_, data'))).
  - apply read_loop_monotone.
  - by intros [??] ?????.
Qed.

Lemma DoPollDevice_loop_monotone this error retry_count :
  fuel_monotone (λ fuel,
    LicDeviceManager.DoPollDevice_loop bus fuel this error retry_count).
Proof.
  intros fuel. revert error retry_count.
  induction fuel as [|fuel IH]; intros error retry_count fuel' s r Hle; [done|].
  destruct fuel' as [|fuel']; [lia|]. run.
  destruct (_ && _); [|done]. apply IH. lia.
Qed.

Lemma DoPollDevice_monotone this :
  fuel_monotone (λ fuel, LicDeviceManager.DoPollDevice bus fuel this).
Proof.
  unfold LicDeviceManager.DoPollDevice.
  apply (bind_monotone (λ fuel, LicDeviceManager.DoPollDevice_loop bus fuel this 5 0)).
  - apply DoPollDevice_loop_monotone.
  - by intros ??????.
Qed.

Lemma RegisterDevice_loop_monotone fuel fuel' header devices new_address address_offset r :
  (fuel ≤ fuel')%nat →
  LicDeviceManager.RegisterDevice_loop fuel header devices new_address address_offset = Some r →
  LicDeviceManager.RegisterDevice_loop fuel' header devices new_address address_offset = Some r.
Proof.
  revert fuel' devices new_address.
  induction fuel as [|fuel IH]; intros fuel' devices new_address Hle; [done|].
  destruct fuel' as [|fuel']; [lia|]. cbn.
  destruct (_ && _); [|done].
  destruct (0 <? _); apply IH; lia.
Qed.

Lemma RegisterDevice_monotone this :
  fuel_monotone (λ fuel, LicDeviceManager.RegisterDevice bus fuel this).
Proof.
  intros fuel fuel' s r Hle. unfold LicDeviceManager.RegisterDevice.
  rewrite !bind_Some. intros (u1 & s1 & H1 & Hrest). exists u1, s1. split; [done|].
  revert Hrest. rewrite !bind_Some. intros (u2 & s2 & H2 & Hrest). exists u2, s2. split; [done|].
  revert Hrest. rewrite !bind_Some. intros (u3 & s3 & H3 & Hrest). exists u3, s3. split; [done|].
  revert Hrest. rewrite !bind_Some. intros ([ok header] & s' & Hread & Hrest).
  exists (ok, header), s'. split; [by eapply read_monotone|].
  destruct ok; [|done].
  destruct (LicDeviceManager.RegisterDevice_loop fuel _ _ _ _) as [[a d]|] eqn:Hloop; [|done].
  by rewrite (RegisterDevice_loop_monotone _ _ _ _ _ _ _ Hle Hloop).
Qed.

Lemma PollDevice_monotone this :
  fuel_monotone (λ fuel, LicDeviceManager.PollDevice bus fuel this).
Proof.
  unfold LicDeviceManager.PollDevice.
  apply bind_monotone; [apply DoPollDevice_monotone|].
  intros [|]; cbn [negb]; [|by intros ?????].
  apply bind_monotone; [apply RegisterDevice_monotone|].
  by intros [??] ?????.
Qed.

End Monotone.

(** ** Arithmetic and record facts *)

Lemma set_rx_id s : set_rx (rx s) s = s.
Proof. by destruct s. Qed.

Lemma tick_S k s : tick k (tick 1 s) = tick (S k) s.
Proof. unfold tick; cbn. f_equal. lia. Qed.

Lemma uint8_idemp x : uint8 (uint8 x) = uint8 x.
Proof. unfold uint8. by rewrite Z.mod_mod. Qed.

Lemma uint8_range x : 0 ≤ uint8 x < 256.
Proof. unfold uint8. apply Z.mod_pos_bound. lia. Qed.

Lemma uint32_small x : 0 ≤ x < 2 ^ 32 → uint32 x = x.
Proof. intros. unfold uint32. by apply Z.mod_small. Qed.

(** ** [WireHelper::wait] and [WireHelper::read] *)

Lemma store_bytes_spec bs : ∀ byte_ptr off,
  (off + length bs ≤ length byte_ptr)%nat →
  store_bytes byte_ptr off bs =
    take off byte_ptr ++ (uint8 <$> bs) ++ drop (off + length bs) byte_ptr.
Proof.
  induction bs as [|b bs IH]; intros byte_ptr off Hlen; cbn.
  - by rewrite Nat.add_0_r, take_drop.
  - cbn in Hlen. rewrite IH by (rewrite length_insert; lia).
    rewrite (take_S_r _ _ (uint8 b)) by (apply list_lookup_insert_eq; lia).
    rewrite take_insert_ge by lia.
    rewrite drop_insert_lt by lia.
    rewrite <- app_assoc. cbn. by rewrite Nat.add_succ_r.
Qed.

Lemma store_bytes_all byte_ptr bs :
  length byte_ptr = length bs → store_bytes byte_ptr 0 bs = uint8 <$> bs.
Proof.
  intros Hlen. rewrite store_bytes_spec by (cbn; lia). cbn.
  rewrite drop_ge by lia. by rewrite app_nil_r.
Qed.

Section WireHelperFacts.
Variable bus : Bus.

(** With enough bytes in the buffer [wait] reads the clock once. *)
Lemma wait_ready fuel sizeof_T timeout s :
  sizeof_T ≤ Z.of_nat (length (rx s)) →
  WireHelper.wait bus (S fuel) sizeof_T timeout s = Some (true, tick 1 s).
Proof.
  intros Hlen. unfold WireHelper.wait. run.
  by rewrite (proj2 (Z.ltb_ge _ _) Hlen).
Qed.

(** Whatever [wait] answers, it answers [true] exactly when the buffer holds
    [sizeof_T] bytes, and it leaves the buffer and the bus alone. *)
Lemma wait_loop_answer fuel sizeof_T timeout start_time s ready s' :
  WireHelper.wait_loop bus fuel sizeof_T timeout start_time s = Some (ready, s') →
  (rx s' = rx s ∧ n_end s' = n_end s ∧ n_req s' = n_req s)
  ∧ (ready = true ↔ sizeof_T ≤ Z.of_nat (length (rx s))).
Proof.
  revert s. induction fuel as [|fuel IH]; intros s; [done|]. run.
  destruct (Z.ltb_spec (Z.of_nat (length (rx s))) sizeof_T) as [Hlt|Hge].
  - destruct (timeout <? _).
    + intros [= <- <-]. cbn. split; [done|]. split; [done|lia].
    + intros Hrec. apply IH in Hrec. by cbn in Hrec.
  - intros [= <- <-]. done.
Qed.

(** With too few bytes [wait] polls the clock until it shows more than
    [timeout] elapsed, reports and gives up. *)
Lemma wait_loop_gives_up j : ∀ fuel sizeof_T timeout start_time s,
  Z.of_nat (length (rx s)) < sizeof_T →
  (j < fuel)%nat →
  timeout < uint64 (uint32 (millis_at bus (j + n_millis s)) - start_time) →
  ∃ k, WireHelper.wait_loop bus fuel sizeof_T timeout start_time s =
       Some (false, emit (EvSerialPrint wait_timeout_message) (tick (S k) s)).
Proof.
  induction j as [|j IH]; intros fuel sizeof_T timeout start_time s Hlen Hfuel Hout;
    (destruct fuel as [|fuel]; [lia|]); run;
    rewrite (proj2 (Z.ltb_lt _ _) Hlen).
  - cbn in Hout. rewrite (proj2 (Z.ltb_lt _ _) Hout). by exists 0%nat.
  - destruct (timeout <? _); [by exists 0%nat|].
    destruct (IH fuel sizeof_T timeout start_time (tick 1 s)) as [k Hk];
      [done|lia|cbn; by rewrite Nat.add_succ_r| ].
    exists (S k). unfold tick at 1 in Hk. cbn in Hk. rewrite Hk.
    by rewrite tick_S.
Qed.

Lemma read_loop_run bs : ∀ fuel data_size byte_ptr data_offset rest s,
  0 ≤ data_offset →
  data_offset + Z.of_nat (length bs) = data_size →
  (length bs < fuel)%nat →
  WireHelper.read_loop fuel data_size byte_ptr data_offset (set_rx (bs ++ rest) s) =
    Some ((store_bytes byte_ptr (Z.to_nat data_offset) bs, data_size), set_rx rest s).
Proof.
  induction bs as [|b bs IH]; intros fuel data_size byte_ptr off rest s Hoff Hsize Hfuel;
    (destruct fuel as [|fuel]; [cbn in Hfuel; lia|]); cbn in Hsize, Hfuel; run.
  - rewrite (proj2 (Z.ltb_ge _ _)) by lia. rewrite andb_false_r.
    do 3 f_equal. lia.
  - rewrite (proj2 (Z.ltb_lt off data_size)) by lia.
    destruct (Z.eqb_spec (Z.of_nat (S (length (bs ++ rest)))) 0) as [?|_]; [lia|]. cbn.
    rewrite uint8_idemp.
    replace (S (Z.to_nat off)) with (Z.to_nat (off + 1)) by lia.
    apply (IH fuel data_size _ (off + 1) rest s); lia.
Qed.

End WireHelperFacts.

Section ReadHeader.
Variable bus : Bus.

Abbreviation read_header fuel data :=
  (WireHelper.read bus fuel sizeof_LicDeviceHeader data 1 150).

Lemma read_header_ready fuel data s :
  (8 ≤ length (rx s))%nat → (8 < fuel)%nat →
  read_header fuel data s =
    Some ((true, store_bytes data 0 (take 8 (rx s))),
          set_rx (drop 8 (rx s)) (tick 1 s)).
Proof.
  intros Hlen Hfuel. unfold WireHelper.read. cbn [Z.eqb].
  destruct fuel as [|fuel]; [lia|].
  unfold mbind at 1, M_bind at 1.
  rewrite wait_ready by (unfold sizeof_LicDeviceHeader; lia). cbn [negb].
  unfold mbind, M_bind.
  rewrite <- (set_rx_id (tick 1 s)). cbn [tick rx].
  rewrite <- (take_drop 8 (rx s)) at 1.
  rewrite (read_loop_run (take 8 (rx s)) (S fuel) 8 data 0);
    [done|done|rewrite length_take; unfold sizeof_LicDeviceHeader;
                change (uint32 (8 * 1)) with 8; lia|rewrite length_take; lia].
Qed.

Lemma read_header_gives_up fuel data s j :
  (length (rx s) < 8)%nat → (j < fuel)%nat → 150 < elapsed bus s j →
  ∃ k, read_header fuel data s =
       Some ((false, data),
             emit (EvSerialPrint wait_timeout_message) (tick (S (S k)) s)).
Proof.
  intros Hlen Hfuel Hout. unfold WireHelper.read, WireHelper.wait. cbn [Z.eqb].
  destruct (wait_loop_gives_up bus j fuel sizeof_LicDeviceHeader 150
              (uint32 (millis_at bus (n_millis s))) (tick 1 s)) as [k Hk].
  - cbn. unfold sizeof_LicDeviceHeader. lia.
  - done.
  - cbn. by rewrite Nat.add_succ_r.
  - exists k. unfold_M. cbn. unfold tick at 1 in Hk. cbn in Hk. rewrite Hk.
    cbn. by rewrite tick_S.
Qed.

Lemma read_header_inv fuel data s ok data' s' :
  read_header fuel data s = Some ((ok, data'), s') →
  ((8 ≤ length (rx s))%nat ∧ ok = true
     ∧ data' = store_bytes data 0 (take 8 (rx s))
     ∧ s' = set_rx (drop 8 (rx s)) (tick 1 s))
  ∨ ((length (rx s) < 8)%nat ∧ ok = false ∧ data' = data ∧ rx s' = rx s
     ∧ n_end s' = n_end s ∧ n_req s' = n_req s).
Proof.
  intros Hrun. destruct (decide (8 ≤ length (rx s))%nat) as [Hlen|Hlen].
  - left. apply (read_monotone bus _ _ _ _ fuel (fuel + 9)%nat) in Hrun; [|lia].
    rewrite read_header_ready in Hrun by lia. by injection Hrun as <- <- <-.
  - right. revert Hrun. unfold WireHelper.read, WireHelper.wait. cbn [Z.eqb].
    rewrite bind_Some. intros (ready & s2 & Hwait & Hrest).
    apply bind_Some in Hwait as (start & s1 & Hstart & Hwait).
    injection Hstart as <- <-.
    apply wait_loop_answer in Hwait as [(Hrx & Hend & Hreq) Hready].
    cbn in Hrx, Hend, Hreq. destruct ready.
    + destruct Hready as [Hready _]. specialize (Hready eq_refl).
      cbn in Hready. unfold sizeof_LicDeviceHeader in Hready. lia.
    + injection Hrest as <- <- <-. repeat split; try done. lia.
Qed.

End ReadHeader.

(** ** [LicDeviceManager::DoPollDevice] *)

Lemma probed_0 bus retry_delay s : probed bus retry_delay 0 s = s.
Proof. destruct s. unfold probed, probes. cbn. by rewrite app_nil_r. Qed.

Lemma probed_S bus retry_delay m s :
  probed bus retry_delay m (probed bus retry_delay 1 s) = probed bus retry_delay (S m) s.
Proof.
  unfold probed, probes. cbn. rewrite <- app_assoc. cbn.
  f_equal. lia.
Qed.

Lemma DoPollDevice_report_prints error : Forall is_serial_print (DoPollDevice_report error).
Proof.
  unfold DoPollDevice_report.
  repeat (destruct (error =? _); [by repeat constructor|]). constructor.
Qed.

Section DoPollDeviceFacts.
Variable bus : Bus.
Variable this : LicDeviceManager.t.
Hypothesis retry_count_range : 0 ≤ LicDeviceManager.m_retry_count this < 2 ^ 32.

Abbreviation retry_delay := (LicDeviceManager.m_retry_delay this).

Lemma DoPollDevice_loop_run n : ∀ fuel error retry_count s,
  0 ≤ retry_count →
  retry_count + Z.of_nat n = LicDeviceManager.m_retry_count this →
  (n < fuel)%nat → 0 < error →
  ∃ m error',
    LicDeviceManager.DoPollDevice_loop bus fuel this error retry_count s =
      Some (error', probed bus retry_delay m s)
    ∧ probe_outcome bus n error s m error'.
Proof.
  induction n as [|n IH]; intros fuel error rc s Hrc Hleft Hfuel Herr;
    (destruct fuel as [|fuel]; [lia|]); run.
  - rewrite (proj2 (Z.ltb_ge rc _)) by lia. rewrite andb_false_r.
    exists 0%nat, error. rewrite probed_0. split; [done|].
    unfold probe_outcome. repeat split; try lia.
    intros (k & ? & _). lia.
  - rewrite (proj2 (Z.ltb_lt 0 error)) by done.
    rewrite (proj2 (Z.ltb_lt rc _)) by lia. cbn.
    rewrite uint32_small by lia.
    match goal with |- context [LicDeviceManager.DoPollDevice_loop _ _ _ _ _ ?s1] =>
      replace s1 with (probed bus retry_delay 1 s)
        by (unfold probed, probes, emit; cbn; rewrite <- !app_assoc; done)
    end.
    fold (status_at bus (n_end s)).
    destruct (decide (status_at bus (n_end s) = 0)) as [Hok|Hko].
    + rewrite Hok. destruct fuel as [|fuel]; [lia|]. run.
      exists 1%nat, 0. split; [done|].
      unfold probe_outcome. repeat split; try lia.
      * intros _. exists 0%nat. rewrite Nat.add_0_r. split; [lia|done].
    + pose proof (uint8_range (endTransmission_status bus (n_end s))) as Hrange.
      fold (status_at bus (n_end s)) in Hrange.
      destruct (IH fuel (status_at bus (n_end s)) (rc + 1) (probed bus retry_delay 1 s))
        as (m & error' & Hrun & Hm & Hpos & Hzero & Hfirst & Hfound & Hall);
        [lia|lia|lia|lia|].
      exists (S m), error'. rewrite Hrun, probed_S. split; [done|].
      cbn [probed n_end] in Hfirst, Hfound.
      unfold probe_outcome. repeat split; try lia.
      * intros [|k] Hk Hst.
        -- rewrite Nat.add_0_r in Hst. done.
        -- f_equal. apply Hfirst; [lia|].
           by replace (1 + n_end s + k)%nat with (n_end s + S k)%nat by lia.
      * intros He. apply Hfound in He as (k & Hk & Hst). exists (S k). split; [lia|].
        by replace (n_end s + S k)%nat with (1 + n_end s + k)%nat by lia.
      * intros ([|k] & Hk & Hst).
        -- rewrite Nat.add_0_r in Hst. done.
        -- apply Hfound. exists k. split; [lia|].
           by replace (1 + n_end s + k)%nat with (n_end s + S k)%nat by lia.
Qed.

Lemma DoPollDevice_run fuel s :
  (Z.to_nat (LicDeviceManager.m_retry_count this) < fuel)%nat →
  ∃ m error',
    LicDeviceManager.DoPollDevice bus fuel this s =
      Some (error' =? 0,
            emits (DoPollDevice_report error') (probed bus retry_delay m s))
    ∧ probe_outcome bus (Z.to_nat (LicDeviceManager.m_retry_count this)) 5 s m error'.
Proof.
  intros Hfuel.
  destruct (DoPollDevice_loop_run (Z.to_nat (LicDeviceManager.m_retry_count this))
              fuel 5 0 s) as (m & error' & Hrun & Hout); [lia|lia|lia|lia|].
  exists m, error'. split; [|done].
  unfold LicDeviceManager.DoPollDevice. unfold mbind at 1, M_bind at 1.
  rewrite Hrun. unfold DoPollDevice_report. unfold_M.
  destruct (error' =? 1); [done|]. destruct (error' =? 2); [done|].
  destruct (error' =? 3); [done|]. by destruct (error' =? 4).
Qed.

End DoPollDeviceFacts.

(** ** [LicDeviceManager::RegisterDevice] *)

Section RegisterDeviceFacts.
Variable bus : Bus.

(** Slot 0 occupied: [continue] re-enters the loop in the state it left. *)
Lemma RegisterDevice_loop_hangs fuel header devices :
  0 < uuid (devices !!! 0%nat) →
  LicDeviceManager.RegisterDevice_loop fuel header devices LICD_LISTENER_ADDRESS 0 = None.
Proof.
  intros Hocc. induction fuel as [|fuel IH]; [done|]. cbn.
  change (Z.to_nat 0) with 0%nat. by rewrite (proj2 (Z.ltb_lt _ _) Hocc).
Qed.

(** Slot 0 free: it takes the header and the loop ends with address 0x02. *)
Lemma RegisterDevice_loop_free fuel header devices :
  uuid (devices !!! 0%nat) ≤ 0 →
  LicDeviceManager.RegisterDevice_loop (S (S fuel)) header devices LICD_LISTENER_ADDRESS 0
  = Some (0x02, <[0%nat := header]> devices).
Proof.
  intros Hfree. cbn. change (Z.to_nat 0) with 0%nat.
  by rewrite (proj2 (Z.ltb_ge _ _) Hfree).
Qed.

Lemma RegisterDevice_loop_inv fuel header devices r :
  LicDeviceManager.RegisterDevice_loop fuel header devices LICD_LISTENER_ADDRESS 0 = Some r →
  uuid (devices !!! 0%nat) ≤ 0 ∧ r = (0x02, <[0%nat := header]> devices).
Proof.
  intros Hrun. destruct (decide (0 < uuid (devices !!! 0%nat))) as [Hocc|Hfree].
  - by rewrite RegisterDevice_loop_hangs in Hrun.
  - split; [lia|].
    apply (RegisterDevice_loop_monotone fuel (S (S fuel))) in Hrun; [|lia].
    rewrite RegisterDevice_loop_free in Hrun by lia. by injection Hrun.
Qed.

Lemma RegisterDevice_unfold fuel this s :
  LicDeviceManager.RegisterDevice bus fuel this s =
    ('(ok, header) ← WireHelper.read bus fuel sizeof_LicDeviceHeader
                       (header_bytes {| uuid := 0; flags := 0 |}) 1 150;
     if ok : bool then
       match LicDeviceManager.RegisterDevice_loop fuel (header_of_bytes header)
               (LicDeviceManager.m_devices this) LICD_LISTENER_ADDRESS 0 with
       | Some (new_address, devices) =>
           mret (new_address, LicDeviceManager.set_devices devices this)
       | None => out_of_fuel
       end
     else
       Serial.print pull_failed_message;;
       mret (LICD_LISTENER_ADDRESS, this))
    (requested bus (LicDeviceManager.m_wait_delay this) s).
Proof.
  unfold LicDeviceManager.RegisterDevice.
  unfold mbind at 1 2 3, M_bind at 1 2 3, delay, Wire.requestFrom.
  unfold requested, emit. cbn [rx own_address on_receive on_request n_end n_req n_millis log].
  by rewrite <- !app_assoc.
Qed.

Lemma pulled_header_stored s :
  (8 ≤ length (requestFrom_bytes bus (n_req s)))%nat →
  header_of_bytes (store_bytes (header_bytes {| uuid := 0; flags := 0 |}) 0
                     (take 8 (requestFrom_bytes bus (n_req s))))
  = pulled_header bus (n_req s).
Proof.
  intros Hlen. unfold pulled_header. rewrite store_bytes_all; [done|].
  rewrite length_take. change (length (header_bytes _)) with 8%nat. lia.
Qed.

Lemma RegisterDevice_registers fuel this s :
  (8 ≤ length (requestFrom_bytes bus (n_req s)))%nat → (8 < fuel)%nat →
  uuid (LicDeviceManager.m_devices this !!! 0%nat) ≤ 0 →
  LicDeviceManager.RegisterDevice bus fuel this s =
    Some ((0x02, LicDeviceManager.set_devices
                   (<[0%nat := pulled_header bus (n_req s)]> (LicDeviceManager.m_devices this))
                   this),
          set_rx (drop 8 (requestFrom_bytes bus (n_req s)))
            (tick 1 (requested bus (LicDeviceManager.m_wait_delay this) s))).
Proof.
  intros Hlen Hfuel Hfree. rewrite RegisterDevice_unfold.
  unfold mbind at 1, M_bind at 1. rewrite read_header_ready by done.
  destruct fuel as [|[|fuel]]; [lia|lia|].
  rewrite RegisterDevice_loop_free by done.
  cbn [requested rx]. by rewrite pulled_header_stored.
Qed.

Lemma RegisterDevice_hangs fuel this s :
  (8 ≤ length (requestFrom_bytes bus (n_req s)))%nat →
  0 < uuid (LicDeviceManager.m_devices this !!! 0%nat) →
  LicDeviceManager.RegisterDevice bus fuel this s = None.
Proof.
  intros Hlen Hocc. rewrite RegisterDevice_unfold.
  unfold mbind at 1, M_bind at 1.
  destruct (WireHelper.read _ _ _ _ _ _ _) as [[[ok header] s']|] eqn:Hread; [|done].
  apply read_header_inv in Hread as [(_ & -> & _)|(Hshort & _)].
  - by rewrite RegisterDevice_loop_hangs.
  - cbn in Hshort. lia.
Qed.

Lemma RegisterDevice_gives_up fuel this s j :
  (length (requestFrom_bytes bus (n_req s)) < 8)%nat →
  (j < fuel)%nat → 150 < elapsed bus s j →
  ∃ k, LicDeviceManager.RegisterDevice bus fuel this s =
       Some ((LICD_LISTENER_ADDRESS, this),
             emits [EvSerialPrint wait_timeout_message;
                    EvSerialPrint pull_failed_message]
               (tick (S (S k)) (requested bus (LicDeviceManager.m_wait_delay this) s))).
Proof.
  intros Hlen Hfuel Hout. rewrite RegisterDevice_unfold.
  destruct (read_header_gives_up bus fuel (header_bytes {| uuid := 0; flags := 0 |})
              (requested bus (LicDeviceManager.m_wait_delay this) s) j) as [k Hk];
    [done|done|done|].
  exists k. unfold mbind at 1, M_bind at 1. by rewrite Hk.
Qed.

(** However [RegisterDevice] returns, it either registered in slot 0 or the
    pull failed and nothing changed. *)
Lemma RegisterDevice_inv fuel this s new_address this' s' :
  LicDeviceManager.RegisterDevice bus fuel this s = Some ((new_address, this'), s') →
  ((8 ≤ length (requestFrom_bytes bus (n_req s)))%nat
     ∧ uuid (LicDeviceManager.m_devices this !!! 0%nat) ≤ 0
     ∧ new_address = 0x02
     ∧ this' = LicDeviceManager.set_devices
                 (<[0%nat := pulled_header bus (n_req s)]> (LicDeviceManager.m_devices this))
                 this)
  ∨ ((length (requestFrom_bytes bus (n_req s)) < 8)%nat
     ∧ new_address = LICD_LISTENER_ADDRESS ∧ this' = this
     ∧ n_end s' = n_end s).
Proof.
  rewrite RegisterDevice_unfold. rewrite bind_Some.
  intros ([ok header] & s1 & Hread & Hrest).
  apply read_header_inv in Hread
    as [(Hlen & -> & -> & ->)|(Hshort & -> & -> & _ & Hend & _)].
  - left. cbn [requested rx] in *.
    destruct (LicDeviceManager.RegisterDevice_loop _ _ _ _ _) as [[a devices]|] eqn:Hloop;
      [|done].
    apply RegisterDevice_loop_inv in Hloop as [Hfree [= -> ->]].
    injection Hrest as <- <- <-. by rewrite pulled_header_stored.
  - right. cbn [requested rx n_end] in *. revert Hrest. unfold_M.
    intros [= <- <- <-]. cbn. done.
Qed.

End RegisterDeviceFacts.

(** The example manager is the one the constructor builds. *)
Example default_manager_is_constructed :
  LicDeviceManager.new 5 30 15 power_on
  = Some (default_manager, emit (EvBegin None) power_on).
Proof. reflexivity. Qed.

(** ** The probe step *)

(** C6.  With [r = m_retry_count], [DoPollDevice] makes [m ≤ r] probes of the
    listener address, each a transaction carrying the UUID query followed by
    the retry delay; a probe that is acknowledged is the last one; the
    answer is [true] exactly when one of the probes was acknowledged; and
    when it is [false], all [r] probes were made and [PollDevice] returns
    there, with nothing registered and nothing more sent. *)
Theorem DoPollDevice_probes bus this fuel s :
  0 ≤ LicDeviceManager.m_retry_count this < 2 ^ 32 →
  (Z.to_nat (LicDeviceManager.m_retry_count this) < fuel)%nat →
  ∃ (m : nat) (found : bool) (report : list Event) (s' : State),
    LicDeviceManager.DoPollDevice bus fuel this s = Some (found, s')
    ∧ (m ≤ Z.to_nat (LicDeviceManager.m_retry_count this))%nat
    ∧ log s' = log s ++ probes bus (LicDeviceManager.m_retry_delay this) (n_end s) m
                     ++ report
    ∧ Forall is_serial_print report
    ∧ (∀ k, (k < m)%nat → status_at bus (n_end s + k) = 0 → S k = m)
    ∧ (found = true ↔ ∃ k, (k < m)%nat ∧ status_at bus (n_end s + k) = 0)
    ∧ (found = false →
         m = Z.to_nat (LicDeviceManager.m_retry_count this)
         ∧ LicDeviceManager.PollDevice bus fuel this s = Some (this, s')).
Proof.
  intros Hrange Hfuel.
  destruct (DoPollDevice_run bus this Hrange fuel s Hfuel)
    as (m & error' & Hrun & Hm & Hpos & Hzero & Hfirst & Hfound & Hall).
  eexists m, (error' =? 0), (DoPollDevice_report error'), _.
  split; [exact Hrun|]. split; [done|]. split.
  { unfold DoPollDevice_report.
    destruct (error' =? 1); [|destruct (error' =? 2); [|destruct (error' =? 3);
      [|destruct (error' =? 4)]]];
      cbn [emits foldl emit log probed]; by rewrite <- ?app_assoc, ?app_nil_r. }
  split; [apply DoPollDevice_report_prints|]. split; [done|]. split.
  { rewrite Z.eqb_eq. done. }
  intros Hnot. apply Z.eqb_neq in Hnot. split; [by apply Hall|].
  unfold LicDeviceManager.PollDevice. unfold mbind at 1, M_bind at 1.
  rewrite Hrun. apply Z.eqb_neq in Hnot. by rewrite Hnot.
Qed.

Lemma DoPollDevice_probes_witness :
  ∃ (m : nat) (found : bool) (report : list Event) (s' : State),
    LicDeviceManager.DoPollDevice bus_short_answer 6 default_manager power_on
      = Some (found, s')
    ∧ (m ≤ Z.to_nat (LicDeviceManager.m_retry_count default_manager))%nat
    ∧ log s' = log power_on
                 ++ probes bus_short_answer
                      (LicDeviceManager.m_retry_delay default_manager)
                      (n_end power_on) m
                 ++ report
    ∧ Forall is_serial_print report
    ∧ (∀ k, (k < m)%nat →
         status_at bus_short_answer (n_end power_on + k) = 0 → S k = m)
    ∧ (found = true ↔
         ∃ k, (k < m)%nat ∧ status_at bus_short_answer (n_end power_on + k) = 0)
    ∧ (found = false →
         m = Z.to_nat (LicDeviceManager.m_retry_count default_manager)
         ∧ LicDeviceManager.PollDevice bus_short_answer 6 default_manager power_on
           = Some (default_manager, s')).
Proof.
  apply (DoPollDevice_probes bus_short_answer default_manager 6 power_on).
  - cbn. lia.
  - cbn. lia.
Defined.

(** ** The header pull *)




(** C1, as the code has it.  When the probe succeeds and the pull fails
    (fewer than 8 bytes arrived and the wait timed out), [PollDevice] returns
    with the registry unchanged and sends no ASSIGN; after the two failure
    reports it still opens the closing transaction to the listener address
    and sends RETRY. *)
Theorem PollDevice_pull_failure bus fuel this s s1 j :
  LicDeviceManager.DoPollDevice bus fuel this s = Some (true, s1) →
  (length (requestFrom_bytes bus (n_req s1)) < 8)%nat →
  (j < fuel)%nat → 150 < elapsed bus s1 j →
  ∃ s', LicDeviceManager.PollDevice bus fuel this s = Some (this, s')
        ∧ log s' = log s1 ++
            [EvDelay (LicDeviceManager.m_wait_delay this);
             EvRequestFrom LICD_LISTENER_ADDRESS sizeof_LicDeviceHeader;
             EvDelay (LicDeviceManager.m_wait_delay this);
             EvSerialPrint wait_timeout_message;
             EvSerialPrint pull_failed_message;
             EvBeginTransmission LICD_LISTENER_ADDRESS;
             EvWrite LICD_COMMAND_RETRY;
             EvEndTransmission (status_at bus (n_end s1))].
Proof.
  intros Hprobe Hshort Hfuel Hout.
  destruct (RegisterDevice_gives_up bus fuel this s1 j Hshort Hfuel Hout) as [k Hk].
  unfold LicDeviceManager.PollDevice. unfold mbind at 1, M_bind at 1.
  rewrite Hprobe. cbn [negb]. unfold mbind at 1, M_bind at 1. rewrite Hk.
  eexists. split; [reflexivity|].
  cbn. by rewrite <- !app_assoc.
Qed.

Lemma PollDevice_pull_failure_witness :
  ∃ s', LicDeviceManager.PollDevice bus_short_answer 6 default_manager power_on
          = Some (default_manager, s')
        ∧ log s' =
            log (emits (probes bus_short_answer 30 0 3) (tick 0 power_on)) ++
            [EvDelay (LicDeviceManager.m_wait_delay default_manager);
             EvRequestFrom LICD_LISTENER_ADDRESS sizeof_LicDeviceHeader;
             EvDelay (LicDeviceManager.m_wait_delay default_manager);
             EvSerialPrint wait_timeout_message;
             EvSerialPrint pull_failed_message;
             EvBeginTransmission LICD_LISTENER_ADDRESS;
             EvWrite LICD_COMMAND_RETRY;
             EvEndTransmission 0].
Proof.
  apply (PollDevice_pull_failure bus_short_answer 6 default_manager power_on
           {| rx := []; own_address := None; on_receive := None; on_request := None;
              n_end := 3; n_req := 0; n_millis := 0;
              log := probes bus_short_answer 30 0 3 |} 1).
  - vm_compute. reflexivity.
  - cbn. lia.
  - lia.
  - vm_compute. reflexivity.
Defined.

(** C1 as stated fails: the probe is acknowledged, 5 of 8 header bytes
    arrive, and the cycle ends by sending RETRY. *)
Lemma pull_failure_is_answered_with_RETRY :
  (λ r, (LicDeviceManager.m_devices (fst r), drop 15 (log (snd r))))
    <$> LicDeviceManager.PollDevice bus_short_answer 6 default_manager power_on
  = Some (LicDeviceManager.m_devices default_manager,
          [EvSerialPrint wait_timeout_message;
           EvSerialPrint pull_failed_message;
           EvBeginTransmission LICD_LISTENER_ADDRESS;
           EvWrite LICD_COMMAND_RETRY;
           EvEndTransmission 0]).
Proof. vm_compute. reflexivity. Qed.

(** ** The allocation scan *)

(** C3 on the code.  Once the probe and the pull have succeeded and slot 0 is
    occupied, [PollDevice] does not return, whatever the fuel: the scan
    [continue]s without advancing [address_offset]. *)
Theorem PollDevice_does_not_terminate bus fuel0 this s s1 :
  LicDeviceManager.DoPollDevice bus fuel0 this s = Some (true, s1) →
  (8 ≤ length (requestFrom_bytes bus (n_req s1)))%nat →
  0 < uuid (LicDeviceManager.m_devices this !!! 0%nat) →
  ∀ fuel, LicDeviceManager.PollDevice bus fuel this s = None.
Proof.
  intros Hprobe Hlen Hocc fuel.
  destruct (LicDeviceManager.PollDevice bus fuel this s) as [r|] eqn:Hrun; [|done].
  apply (PollDevice_monotone bus this fuel (Nat.max fuel fuel0)) in Hrun; [|lia].
  apply (DoPollDevice_monotone bus this fuel0 (Nat.max fuel fuel0)) in Hprobe; [|lia].
  revert Hrun. unfold LicDeviceManager.PollDevice. unfold mbind at 1, M_bind at 1.
  rewrite Hprobe. cbn [negb]. unfold mbind at 1, M_bind at 1.
  by rewrite RegisterDevice_hangs.
Qed.

Lemma PollDevice_does_not_terminate_witness :
  LicDeviceManager.PollDevice bus_one_slave 1000 (manager_with registry_one) power_on
  = None.
Proof.
  refine (PollDevice_does_not_terminate bus_one_slave 2 _ power_on
            {| rx := []; own_address := None; on_receive := None; on_request := None;
               n_end := 1; n_req := 0; n_millis := 0;
               log := probes bus_one_slave 30 0 1 |} _ _ _ 1000%nat).
  - vm_compute. reflexivity.
  - cbn. lia.
  - by vm_compute.
Defined.

(** The function on a registry value with all 126 slots occupied, an
    acknowledged probe and a complete header: [PollDevice] does not return.
    No run of the library builds such a registry: the constructor zeroes
    [m_devices] and [RegisterDevice] writes slot 0 only. *)
Lemma PollDevice_full_registry_hangs :
  ∀ fuel,
    LicDeviceManager.PollDevice bus_one_slave fuel (manager_with registry_full) power_on
    = None.
Proof.
  intros fuel.
  destruct (LicDeviceManager.PollDevice _ _ _ _) as [r|] eqn:Hrun; [|done].
  apply (PollDevice_monotone _ _ fuel (S (S fuel))) in Hrun; [|lia].
  revert Hrun. unfold LicDeviceManager.PollDevice. unfold mbind at 1, M_bind at 1.
  change (LicDeviceManager.DoPollDevice bus_one_slave (S (S fuel))
            (manager_with registry_full) power_on)
    with (Some (true, probed bus_one_slave 30 1 power_on)).
  cbn [negb]. unfold mbind at 1, M_bind at 1.
  rewrite RegisterDevice_hangs; [done|cbn; lia|by vm_compute].
Qed.

(** C2 on the code.  After one registration slot 0 is occupied and the
    specified allocation is slot 1, address 0x03; with free slots exactly at
    2, 5 and 9 it is slot 2, address 0x04.  In both registries the scan of
    [RegisterDevice] never leaves slot 0, so the function does not return. *)
Theorem RegisterDevice_misses_first_fit :
  (spec_allocate registry_one = Some 0x03
   ∧ ∀ fuel s,
       LicDeviceManager.RegisterDevice bus_one_slave fuel (manager_with registry_one) s
       = None)
  ∧ (spec_allocate registry_259 = Some 0x04
     ∧ ∀ fuel s,
         LicDeviceManager.RegisterDevice bus_one_slave fuel (manager_with registry_259) s
         = None)
  ∧ (∀ fuel header,
       LicDeviceManager.RegisterDevice_loop fuel header registry_259
         LICD_LISTENER_ADDRESS 0 = None).
Proof.
  split; [|split]; [split; [by vm_compute|]..|].
  - intros fuel s. apply RegisterDevice_hangs; [cbn; lia|by vm_compute].
  - intros fuel s. apply RegisterDevice_hangs; [cbn; lia|by vm_compute].
  - intros fuel header. apply RegisterDevice_loop_hangs. by vm_compute.
Qed.





(** Two slaves, one address.  The slave with [uuid = 0] is registered in the
    first cycle, the slave with [uuid = 0x1234ABCD] in the second: both
    cycles end with ASSIGN 0x02, and the second header replaces the first
    in slot 0. *)
Example two_slaves_get_the_same_address :
  (λ r, (LicDeviceManager.m_devices (fst r) !!! 0%nat, bus_writes (log (snd r))))
    <$> poll_cycles bus_zero_then_one [9; 9]%nat default_manager power_on
  = Some ({| uuid := 0x1234ABCD; flags := 0 |},
          [(LICD_LISTENER_ADDRESS, [LICD_COMMAND_UUID]);
           (LICD_LISTENER_ADDRESS, [LICD_COMMAND_ASSIGN; 0x02]);
           (LICD_LISTENER_ADDRESS, [LICD_COMMAND_UUID]);
           (LICD_LISTENER_ADDRESS, [LICD_COMMAND_ASSIGN; 0x02])]).
Proof. vm_compute. reflexivity. Qed.

(** The one allocation the scan can make.  When the probe and the pull
    succeed and slot 0 is free, [PollDevice] stores the pulled header in
    slot 0 and sends ASSIGN with address 0x02. *)
Theorem PollDevice_registers_in_slot_0 bus fuel this s s1 :
  LicDeviceManager.DoPollDevice bus fuel this s = Some (true, s1) →
  (8 < fuel)%nat →
  (8 ≤ length (requestFrom_bytes bus (n_req s1)))%nat →
  uuid (LicDeviceManager.m_devices this !!! 0%nat) ≤ 0 →
  ∃ s', LicDeviceManager.PollDevice bus fuel this s
        = Some (LicDeviceManager.set_devices
                  (<[0%nat := pulled_header bus (n_req s1)]>
                     (LicDeviceManager.m_devices this)) this, s')
        ∧ log s' = log s1 ++
            [EvDelay (LicDeviceManager.m_wait_delay this);
             EvRequestFrom LICD_LISTENER_ADDRESS sizeof_LicDeviceHeader;
             EvDelay (LicDeviceManager.m_wait_delay this);
             EvBeginTransmission LICD_LISTENER_ADDRESS;
             EvWrite LICD_COMMAND_ASSIGN;
             EvWrite 0x02;
             EvEndTransmission (status_at bus (n_end s1))].
Proof.
  intros Hprobe Hfuel Hlen Hfree.
  unfold LicDeviceManager.PollDevice. unfold mbind at 1, M_bind at 1.
  rewrite Hprobe. cbn [negb]. unfold mbind at 1, M_bind at 1.
  rewrite RegisterDevice_registers by done.
  eexists. split; [reflexivity|].
  cbn. by rewrite <- !app_assoc.
Qed.

Lemma PollDevice_registers_in_slot_0_witness :
  ∃ s', LicDeviceManager.PollDevice bus_one_slave 9 default_manager power_on
        = Some (manager_with registry_one, s')
        ∧ log s' = probes bus_one_slave 30 0 1 ++
            [EvDelay 15;
             EvRequestFrom LICD_LISTENER_ADDRESS sizeof_LicDeviceHeader;
             EvDelay 15;
             EvBeginTransmission LICD_LISTENER_ADDRESS;
             EvWrite LICD_COMMAND_ASSIGN;
             EvWrite 0x02;
             EvEndTransmission 0].
Proof.
  apply (PollDevice_registers_in_slot_0 bus_one_slave 9 default_manager power_on
           {| rx := []; own_address := None; on_receive := None; on_request := None;
              n_end := 1; n_req := 0; n_millis := 0;
              log := probes bus_one_slave 30 0 1 |}).
  - vm_compute. reflexivity.
  - lia.
  - cbn. lia.
  - cbn. lia.
Defined.

(** ** The slave *)

(** C5 on the code.  On a UUID query [ReceiveAddress] writes the single byte
    0x00, not an 8-byte [{uuid, flags}] record, and waits 30 ms; the device
    is unchanged, so a listening device keeps listening. *)
Theorem ReceiveAddress_UUID_query_writes_one_zero_byte this s :
  LicDevice.ReceiveAddress this 1 (set_rx [LICD_COMMAND_UUID] s)
  = Some (this, emits [EvWrite 0x00; EvDelay 30] (set_rx [] s)).
Proof. by destruct this. Qed.

(** C10.  A listening device that receives ASSIGN with no payload byte takes
    the -1 of the empty [Wire.read()] as its address: 0xFF, outside
    0x02..0x7F.  It rebinds the transport to 0xFF with the application's
    handlers and reports itself valid. *)
Theorem ReceiveAddress_ASSIGN_without_payload this s :
  LicDevice.m_address this = LICD_LISTENER_ADDRESS →
  ∃ this' s',
    LicDevice.ReceiveAddress this 1 (set_rx [LICD_COMMAND_ASSIGN] s) = Some (this', s')
    ∧ LicDevice.GetAddress this' = 0xFF
    ∧ ¬ (0x02 ≤ LicDevice.GetAddress this' ≤ 0x7F)
    ∧ LicDevice.GetIsValid this' = true
    ∧ own_address s' = Some 0xFF
    ∧ on_receive s' = LicDevice.m_receive this
    ∧ on_request s' = LicDevice.m_request this
    ∧ log s' = log s ++ [EvBegin (Some 0xFF);
                         EvOnReceive (LicDevice.m_receive this);
                         EvOnRequest (LicDevice.m_request this);
                         EvDelay 30].
Proof.
  intros _. eexists _, _. split; [reflexivity|]. cbn.
  change (uint8 (-1)) with 0xFF. split_and!; try done.
  - lia.
  - by rewrite <- !app_assoc.
Qed.

Lemma ReceiveAddress_ASSIGN_without_payload_witness :
  ∃ this' s',
    LicDevice.ReceiveAddress
      {| LicDevice.m_address := 0x01;
         LicDevice.m_receive := Some (fn_app_receive 0);
         LicDevice.m_request := Some (fn_app_request 0) |} 1
      (set_rx [LICD_COMMAND_ASSIGN] power_on) = Some (this', s')
    ∧ LicDevice.GetAddress this' = 0xFF
    ∧ ¬ (0x02 ≤ LicDevice.GetAddress this' ≤ 0x7F)
    ∧ LicDevice.GetIsValid this' = true
    ∧ own_address s' = Some 0xFF
    ∧ on_receive s' = Some (fn_app_receive 0)
    ∧ on_request s' = Some (fn_app_request 0)
    ∧ log s' = log power_on ++ [EvBegin (Some 0xFF);
                                EvOnReceive (Some (fn_app_receive 0));
                                EvOnRequest (Some (fn_app_request 0));
                                EvDelay 30].
Proof.
  apply (ReceiveAddress_ASSIGN_without_payload
           {| LicDevice.m_address := 0x01;
              LicDevice.m_receive := Some (fn_app_receive 0);
              LicDevice.m_request := Some (fn_app_request 0) |} power_on).
  reflexivity.
Defined.

(** *** Sessions *)

Section Session.

Lemma ReceiveAddress_total this byte_count s :
  ∃ this' s', LicDevice.ReceiveAddress this byte_count s = Some (this', s')
    ∧ LicDevice.m_receive this' = LicDevice.m_receive this
    ∧ ((this' = this ∧ on_receive s' = on_receive s)
       ∨ on_receive s' = LicDevice.m_receive this).
Proof.
  unfold LicDevice.ReceiveAddress, LicDevice.Create.
  destruct s as [[|c rest] address receive request k_end k_req k_millis events];
    run; [do 2 eexists; eauto|].
  replace (Z.of_nat (S (length rest)) =? 0) with false
    by (symmetry; apply Z.eqb_neq; lia).
  cbn. rewrite !uint8_idemp.
  destruct (uint8 c =? LICD_COMMAND_UUID); cbn; [do 2 eexists; eauto|].
  destruct (uint8 c =? LICD_COMMAND_ASSIGN); cbn.
  - destruct rest; cbn; do 2 eexists; eauto.
  - destruct (uint8 c =? LICD_COMMAND_RETRY); cbn; do 2 eexists; eauto.
Qed.

Lemma on_bus_write_step this target payload s :
  LicDevice.m_receive this ≠ Some fn_ReceiveAddress →
  listening this s ∨ released this s →
  ∃ this' s',
    LicDevice.on_bus_write this target payload s = Some (this', s')
    ∧ LicDevice.m_receive this' = LicDevice.m_receive this
    ∧ (listening this' s' ∨ released this' s')
    ∧ (released this s → this' = this ∧ released this' s').
Proof.
  intros Happ Hstate. unfold LicDevice.on_bus_write.
  destruct (decide (own_address s = Some target)) as [_|_];
    [|exists this, s; by repeat split].
  cbn [set_rx on_receive].
  destruct (on_receive s) as [[|id]|] eqn:Hhandler.
  - destruct (ReceiveAddress_total this (Z.of_nat (length payload)) (set_rx payload s))
      as (this' & s' & Hrun & Hrcv & Hnext).
    exists this', s'. split; [done|]. split; [done|]. split.
    + destruct Hnext as [[-> Hsame]|Hnew].
      * left. destruct Hstate as [[_ Haddr]|Hrel]; [|by destruct Hrel].
        split; [by rewrite Hsame|done].
      * right. unfold released. by rewrite Hnew.
    + intros Hrel. by destruct Hrel.
  - exists this, (emit (EvApplication id (Z.of_nat (length payload))) (set_rx [] s)).
    split; [done|]. split; [done|].
    assert (released this
              (emit (EvApplication id (Z.of_nat (length payload))) (set_rx [] s))).
    { unfold released. cbn. by rewrite Hhandler. }
    by repeat split; [right|..].
  - exists this, (set_rx payload s). split; [done|]. split; [done|].
    assert (released this (set_rx payload s)).
    { unfold released. cbn. by rewrite Hhandler. }
    by repeat split; [right|..].
Qed.

Lemma session_total writes : ∀ this s,
  LicDevice.m_receive this ≠ Some fn_ReceiveAddress →
  listening this s ∨ released this s →
  ∃ this' s',
    LicDevice.session this writes s = Some (this', s')
    ∧ LicDevice.m_receive this' = LicDevice.m_receive this
    ∧ (listening this' s' ∨ released this' s')
    ∧ (released this s → this' = this).
Proof.
  induction writes as [|[target payload] writes IH]; intros this s Happ Hstate.
  - exists this, s. by repeat split.
  - destruct (on_bus_write_step this target payload s Happ Hstate)
      as (this1 & s1 & Hstep & Hrcv1 & Hstate1 & Hrel1).
    destruct (IH this1 s1) as (this2 & s2 & Hrun & Hrcv2 & Hstate2 & Hrel2);
      [by rewrite Hrcv1|done|].
    exists this2, s2. cbn [LicDevice.session].
    unfold mbind, M_bind. rewrite Hstep. split; [done|].
    split; [by rewrite Hrcv2|]. split; [done|].
    intros Hrel. destruct (Hrel1 Hrel) as [-> Hrel']. by apply Hrel2.
Qed.

Lemma new_listening receive_handler request_handler s0 this0 s :
  LicDevice.new receive_handler request_handler s0 = Some (this0, s) →
  listening this0 s ∧ LicDevice.m_receive this0 = receive_handler.
Proof.
  unfold LicDevice.new, LicDevice.Create. run. by intros [= <- <-].
Qed.

End Session.

(** C8.  In a session that starts with the construction of the device, once
    [GetIsValid] holds no further bus write changes the address: the device
    stays Assigned.  The application's receive handler is not the private
    [ReceiveAddress]. *)
Theorem Assigned_never_returns_to_Listening
    receive_handler request_handler s0 this0 s writes this1 s1 later :
  receive_handler ≠ Some fn_ReceiveAddress →
  LicDevice.new receive_handler request_handler s0 = Some (this0, s) →
  LicDevice.session this0 writes s = Some (this1, s1) →
  LicDevice.GetIsValid this1 = true →
  ∃ this2 s2,
    LicDevice.session this1 later s1 = Some (this2, s2)
    ∧ LicDevice.GetAddress this2 = LicDevice.GetAddress this1
    ∧ LicDevice.GetIsValid this2 = true.
Proof.
  intros Happ Hnew Hrun Hvalid.
  destruct (new_listening _ _ _ _ _ Hnew) as [Hlistening Hrcv0].
  destruct (session_total writes this0 s) as (this1' & s1' & Hrun' & Hrcv & Hstate & _);
    [by rewrite Hrcv0|by left|].
  rewrite Hrun in Hrun'. injection Hrun' as <- <-. rewrite Hrcv0 in Hrcv.
  destruct Hstate as [[_ Haddr]|Hrel].
  { unfold LicDevice.GetIsValid in Hvalid. rewrite Haddr in Hvalid. done. }
  destruct (session_total later this1 s1) as (this2 & s2 & Hlater & _ & _ & Hsame);
    [by rewrite Hrcv|by right|].
  exists this2, s2. split; [done|]. by rewrite (Hsame Hrel).
Qed.

Lemma Assigned_never_returns_to_Listening_witness :
  ∃ this2 s2,
    LicDevice.session
      {| LicDevice.m_address := 0x07;
         LicDevice.m_receive := Some (fn_app_receive 0);
         LicDevice.m_request := Some (fn_app_request 0) |}
      [(0x01, [LICD_COMMAND_ASSIGN; 0x01]); (0x07, [LICD_COMMAND_ASSIGN; 0x00]);
       (0x07, [LICD_COMMAND_UUID])]
      (emits [EvBegin (Some 0x01); EvOnReceive (Some fn_ReceiveAddress);
              EvOnRequest None; EvWrite 0x00; EvDelay 30;
              EvBegin (Some 0x07); EvOnReceive (Some (fn_app_receive 0));
              EvOnRequest (Some (fn_app_request 0)); EvDelay 30]
         {| rx := []; own_address := Some 0x07;
            on_receive := Some (fn_app_receive 0);
            on_request := Some (fn_app_request 0);
            n_end := 0; n_req := 0; n_millis := 0; log := [] |})
    = Some (this2, s2)
    ∧ LicDevice.GetAddress this2 = 0x07
    ∧ LicDevice.GetIsValid this2 = true.
Proof.
  eapply (Assigned_never_returns_to_Listening
            (Some (fn_app_receive 0)) (Some (fn_app_request 0)) power_on
           _ _ [(0x01, [LICD_COMMAND_UUID]); (0x01, [LICD_COMMAND_ASSIGN; 0x07])]).
  - done.
  - reflexivity.
  - vm_compute. reflexivity.
  - reflexivity.
Defined.

(** * Further properties of the library *)

(** ** [WireHelper::write] *)

Lemma emits_app evs1 evs2 s : emits (evs1 ++ evs2) s = emits evs2 (emits evs1 s).
Proof. unfold emits. apply foldl_app. Qed.

Lemma emits_log evs : ∀ s, log (emits evs s) = log s ++ evs.
Proof.
  unfold emits. induction evs as [|e evs IH]; intros s; cbn [foldl].
  - by rewrite app_nil_r.
  - rewrite IH. cbn. by rewrite <- app_assoc.
Qed.

Lemma write_loop_run suffix : ∀ fuel byte_ptr prefix s,
  byte_ptr = prefix ++ suffix →
  (length suffix < fuel)%nat →
  WireHelper.write_loop fuel (Z.of_nat (length byte_ptr)) byte_ptr
    (Z.of_nat (length prefix)) s
  = Some (tt, emits ((λ b, EvWrite (uint8 b)) <$> suffix) s).
Proof.
  induction suffix as [|b suffix IH]; intros fuel byte_ptr prefix s -> Hfuel;
    (destruct fuel as [|fuel]; [cbn in Hfuel; lia|]); cbn in Hfuel;
    cbn [WireHelper.write_loop].
  - rewrite (proj2 (Z.ltb_ge _ _)) by (rewrite length_app; cbn; lia). done.
  - rewrite (proj2 (Z.ltb_lt _ _)) by (rewrite length_app; cbn; lia).
    unfold mbind at 1, M_bind at 1, Wire.write at 1.
    rewrite Nat2Z.id.
    rewrite (list_lookup_total_middle prefix suffix b) by done.
    replace (Z.of_nat (length prefix) + 1) with (Z.of_nat (length (prefix ++ [b])))
      by (rewrite length_app; cbn; lia).
    rewrite (IH fuel (prefix ++ b :: suffix) (prefix ++ [b]));
      [done|by rewrite <- app_assoc|lia].
Qed.

Lemma write_run fuel sizeof_T data count s :
  count ≠ 0 →
  0 ≤ sizeof_T * count < 2 ^ 32 →
  Z.of_nat (length data) = sizeof_T * count →
  (length data < fuel)%nat →
  WireHelper.write fuel sizeof_T data count s
  = Some (tt, emits ((λ b, EvWrite (uint8 b)) <$> data) s).
Proof.
  intros Hcount Hrange Hlen Hfuel. unfold WireHelper.write.
  rewrite (proj2 (Z.eqb_neq _ _) Hcount).
  rewrite uint32_small by done. rewrite <- Hlen.
  by apply (write_loop_run data fuel data []).
Qed.

(** With [count = 0] [write] sends nothing.  Otherwise it sends each byte
    of the [sizeof( T ) * count] bytes behind [data], in memory order, and
    does nothing else on the board. *)
Theorem WireHelper_write_sends_the_bytes fuel sizeof_T data count s :
  (count = 0 → WireHelper.write fuel sizeof_T data count s = Some (tt, s))
  ∧ (count ≠ 0 →
     0 ≤ sizeof_T * count < 2 ^ 32 →
     Z.of_nat (length data) = sizeof_T * count →
     (length data < fuel)%nat →
     WireHelper.write fuel sizeof_T data count s
     = Some (tt, emits ((λ b, EvWrite (uint8 b)) <$> data) s)).
Proof.
  split.
  - intros ->. done.
  - apply write_run.
Qed.

Lemma WireHelper_write_sends_the_bytes_witness :
  WireHelper.write 9 sizeof_LicDeviceHeader
    (header_bytes {| uuid := 0x1234ABCD; flags := 0 |}) 1 power_on
  = Some (tt, emits [EvWrite 0xCD; EvWrite 0xAB; EvWrite 0x34; EvWrite 0x12;
                     EvWrite 0; EvWrite 0; EvWrite 0; EvWrite 0] power_on).
Proof.
  apply (proj2 (WireHelper_write_sends_the_bytes 9 sizeof_LicDeviceHeader
                  (header_bytes {| uuid := 0x1234ABCD; flags := 0 |}) 1 power_on)).
  - done.
  - by vm_compute.
  - reflexivity.
  - cbn. lia.
Defined.

(** ** A header on the wire *)

Lemma uint8_byte_at x i : uint8 (byte_at x i) = byte_at x i.
Proof. unfold uint8, byte_at. by rewrite Z.mod_mod. Qed.

Lemma le32_byte_at x :
  0 ≤ x < 2 ^ 32 →
  le32 (byte_at x 0) (byte_at x 1) (byte_at x 2) (byte_at x 3) = x.
Proof.
  intros Hx. unfold le32, byte_at.
  change (2 ^ (8 * 0)) with 1. change (2 ^ (8 * 1)) with 256.
  change (2 ^ (8 * 2)) with 65536. change (2 ^ (8 * 3)) with 16777216.
  change (2 ^ 8) with 256. change (2 ^ 16) with 65536.
  change (2 ^ 24) with 16777216. change (2 ^ 32) with 4294967296 in Hx.
  Z.div_mod_to_equations. lia.
Qed.

Lemma header_of_header_bytes h :
  0 ≤ uuid h < 2 ^ 32 → 0 ≤ flags h < 2 ^ 32 →
  header_of_bytes (uint8 <$> header_bytes h) = h.
Proof.
  intros Hu Hf. destruct h as [u f]. unfold header_of_bytes, header_bytes.
  cbn -[le32 byte_at uint8]. rewrite !uint8_byte_at.
  by rewrite (le32_byte_at u Hu), (le32_byte_at f Hf).
Qed.

(** A header sent with [WireHelper::write] and received in full is read back
    by [WireHelper::read] as the same header: the sender puts the eight
    bytes of the record on the bus in memory order, and a reader whose
    buffer starts with those bytes stores them, decodes the header sent and
    leaves what follows in the buffer. *)
Theorem header_write_read_round_trip bus fuel h data rest s s' :
  0 ≤ uuid h < 2 ^ 32 → 0 ≤ flags h < 2 ^ 32 →
  length data = 8%nat → (8 < fuel)%nat →
  rx s' = header_bytes h ++ rest →
  WireHelper.write fuel sizeof_LicDeviceHeader (header_bytes h) 1 s
    = Some (tt, emits (EvWrite <$> header_bytes h) s)
  ∧ ∃ data',
      WireHelper.read bus fuel sizeof_LicDeviceHeader data 1 150 s'
        = Some ((true, data'), set_rx rest (tick 1 s'))
      ∧ header_of_bytes data' = h.
Proof.
  intros Hu Hf Hdata Hfuel Hrx. split.
  - rewrite write_run; [|done|by vm_compute|done|unfold header_bytes; cbn; lia].
    do 2 f_equal. unfold header_bytes. cbn. by rewrite !uint8_byte_at.
  - exists (uint8 <$> header_bytes h). split.
    + rewrite read_header_ready by (try rewrite Hrx; cbn; lia).
      rewrite Hrx. cbn [header_bytes app take drop].
      rewrite store_bytes_all by (by rewrite Hdata). done.
    + by apply header_of_header_bytes.
Qed.

Lemma header_write_read_round_trip_witness :
  WireHelper.write 9 sizeof_LicDeviceHeader
    (header_bytes {| uuid := 0x1234ABCD; flags := 5 |}) 1 power_on
    = Some (tt, emits (EvWrite <$> header_bytes {| uuid := 0x1234ABCD; flags := 5 |})
                  power_on)
  ∧ ∃ data',
      WireHelper.read bus_one_slave 9 sizeof_LicDeviceHeader (replicate 8 0) 1 150
        (set_rx (header_bytes {| uuid := 0x1234ABCD; flags := 5 |} ++ [0x99]) power_on)
        = Some ((true, data'),
                set_rx [0x99]
                  (tick 1 (set_rx (header_bytes {| uuid := 0x1234ABCD; flags := 5 |}
                                   ++ [0x99]) power_on)))
      ∧ header_of_bytes data' = {| uuid := 0x1234ABCD; flags := 5 |}.
Proof.
  apply (header_write_read_round_trip bus_one_slave 9
           {| uuid := 0x1234ABCD; flags := 5 |} (replicate 8 0) [0x99] power_on
           (set_rx (header_bytes {| uuid := 0x1234ABCD; flags := 5 |} ++ [0x99])
              power_on)).
  - cbn. lia.
  - cbn. lia.
  - reflexivity.
  - lia.
  - reflexivity.
Defined.

(** ** [WireHelper::read] of several elements *)




(** ** Every way a poll cycle can end *)

Section Outcome.
Variable bus : Bus.

Lemma wait_loop_false fuel sizeof_T timeout start_time : ∀ s s',
  WireHelper.wait_loop bus fuel sizeof_T timeout start_time s = Some (false, s') →
  ∃ k, s' = emit (EvSerialPrint wait_timeout_message) (tick (S k) s).
Proof.
  induction fuel as [|fuel IH]; intros s s'; [done|]. run.
  destruct (_ <? sizeof_T); [|done].
  destruct (timeout <? _).
  - intros [= <-]. by exists 0%nat.
  - intros Hrec. apply (IH (tick 1 s)) in Hrec as [k ->].
    exists (S k). by rewrite tick_S.
Qed.

Lemma read_header_false fuel data s data' s' :
  WireHelper.read bus fuel sizeof_LicDeviceHeader data 1 150 s
    = Some ((false, data'), s') →
  data' = data
  ∧ ∃ k, s' = emit (EvSerialPrint wait_timeout_message) (tick (S (S k)) s).
Proof.
  intros Hrun. pose proof Hrun as Hinv.
  apply read_header_inv in Hinv as [(_ & [=] & _)|(Hshort & _ & -> & _)].
  split; [done|]. revert Hrun.
  unfold WireHelper.read, WireHelper.wait. cbn [Z.eqb].
  rewrite bind_Some. intros (ready & s2 & Hwait & Hrest).
  apply bind_Some in Hwait as (start & s1 & Hstart & Hwait).
  injection Hstart as <- <-.
  pose proof Hwait as Hanswer.
  apply wait_loop_answer in Hanswer as [_ Hready].
  destruct ready.
  - destruct Hready as [Hready _]. specialize (Hready eq_refl).
    cbn in Hready. unfold sizeof_LicDeviceHeader in Hready. lia.
  - injection Hrest as <-.
    apply (wait_loop_false _ _ _ _ (tick 1 s)) in Hwait as [k ->].
    exists k. by rewrite tick_S.
Qed.

(** However [RegisterDevice] returns: it registered in slot 0, or the pull
    timed out and it reported twice. *)
Lemma RegisterDevice_outcome fuel this s new_address this' s' :
  LicDeviceManager.RegisterDevice bus fuel this s = Some ((new_address, this'), s') →
  (uuid (LicDeviceManager.m_devices this !!! 0%nat) ≤ 0
     ∧ new_address = 0x02
     ∧ this' = LicDeviceManager.set_devices
                 (<[0%nat := pulled_header bus (n_req s)]> (LicDeviceManager.m_devices this))
                 this
     ∧ s' = set_rx (drop 8 (requestFrom_bytes bus (n_req s)))
              (tick 1 (requested bus (LicDeviceManager.m_wait_delay this) s)))
  ∨ (new_address = LICD_LISTENER_ADDRESS ∧ this' = this
     ∧ ∃ k, s' = emits [EvSerialPrint wait_timeout_message;
                        EvSerialPrint pull_failed_message]
                   (tick (S (S k)) (requested bus (LicDeviceManager.m_wait_delay this) s))).
Proof.
  rewrite RegisterDevice_unfold. rewrite bind_Some.
  intros ([ok header] & s1 & Hread & Hrest). destruct ok.
  - left. apply read_header_inv in Hread
      as [(Hlen & _ & -> & ->)|(_ & [=] & _)].
    cbn [requested rx] in *.
    destruct (LicDeviceManager.RegisterDevice_loop _ _ _ _ _) as [[a devices]|] eqn:Hloop;
      [|done].
    apply RegisterDevice_loop_inv in Hloop as [Hfree [= -> ->]].
    injection Hrest as <- <- <-. by rewrite pulled_header_stored.
  - right. apply read_header_false in Hread as [-> [k ->]].
    revert Hrest. unfold_M. intros [= <- <- <-]. split; [done|]. split; [done|].
    by exists k.
Qed.

Lemma DoPollDevice_inv fuel this s found s1 :
  0 ≤ LicDeviceManager.m_retry_count this < 2 ^ 32 →
  LicDeviceManager.DoPollDevice bus fuel this s = Some (found, s1) →
  ∃ m error',
    found = (error' =? 0)
    ∧ s1 = emits (DoPollDevice_report error')
             (probed bus (LicDeviceManager.m_retry_delay this) m s)
    ∧ probe_outcome bus (Z.to_nat (LicDeviceManager.m_retry_count this)) 5 s m error'.
Proof.
  intros Hrange Hrun.
  set (fuel' := Nat.max fuel (S (Z.to_nat (LicDeviceManager.m_retry_count this)))).
  apply (DoPollDevice_monotone bus this fuel fuel') in Hrun; [|lia].
  destruct (DoPollDevice_run bus this Hrange fuel' s) as (m & error' & Hrun' & Hout);
    [lia|].
  rewrite Hrun in Hrun'. injection Hrun' as -> ->. by exists m, error'.
Qed.

End Outcome.

(** Whenever [PollDevice] returns, the cycle ended in one of three ways.
    After [m] probes of the listener address (at most [m_retry_count]):
    - no probe was acknowledged: only diagnostics follow, nothing is
      requested or answered, the manager is unchanged;
    - the last probe was acknowledged and the pull timed out: the header
      request, the two reports, then RETRY; the manager is unchanged;
    - the last probe was acknowledged, the header arrived and slot 0 was
      free: the header request, then ASSIGN with address 0x02; the header
      sits in slot 0 and nothing else changed.
    In particular 0x02 is the only address [PollDevice] ever assigns, and
    every transaction and request goes to the listener address. *)
Theorem PollDevice_outcome bus fuel this s this' s' :
  0 ≤ LicDeviceManager.m_retry_count this < 2 ^ 32 →
  LicDeviceManager.PollDevice bus fuel this s = Some (this', s') →
  ∃ (m : nat) (report : list Event),
    (m ≤ Z.to_nat (LicDeviceManager.m_retry_count this))%nat
    ∧ Forall is_serial_print report
    ∧ ((this' = this
        ∧ (∀ k, (k < m)%nat → status_at bus (n_end s + k) ≠ 0)
        ∧ log s' = log s ++ probes bus (LicDeviceManager.m_retry_delay this) (n_end s) m
                         ++ report)
       ∨ (this' = this
          ∧ log s' = log s ++ probes bus (LicDeviceManager.m_retry_delay this) (n_end s) m
                           ++ pull_events (LicDeviceManager.m_wait_delay this)
                           ++ [EvSerialPrint wait_timeout_message;
                               EvSerialPrint pull_failed_message]
                           ++ response_events [LICD_COMMAND_RETRY]
                                (status_at bus (n_end s + m)))
       ∨ (uuid (LicDeviceManager.m_devices this !!! 0%nat) ≤ 0
          ∧ this' = LicDeviceManager.set_devices
                      (<[0%nat := pulled_header bus (n_req s)]>
                         (LicDeviceManager.m_devices this)) this
          ∧ log s' = log s ++ probes bus (LicDeviceManager.m_retry_delay this) (n_end s) m
                           ++ pull_events (LicDeviceManager.m_wait_delay this)
                           ++ response_events [LICD_COMMAND_ASSIGN; 0x02]
                                (status_at bus (n_end s + m)))).
Proof.
  intros Hrange. unfold LicDeviceManager.PollDevice. rewrite bind_Some.
  intros (found & s1 & Hprobe & Hrest).
  apply DoPollDevice_inv in Hprobe
    as (m & error' & -> & -> & Hm & Hpos & Hzero & Hfirst & Hfound & Hall); [|done].
  exists m. destruct (Z.eqb_spec error' 0) as [->|Hne]; cbn [negb] in Hrest.
  - exists []. split; [done|]. split; [constructor|]. right.
    change (DoPollDevice_report 0) with (@nil Event) in Hrest. cbn [emits foldl] in Hrest.
    apply bind_Some in Hrest as ([new_address this2] & s2 & Hreg & Hrest).
    apply RegisterDevice_outcome in Hreg
      as [(Hfree & -> & -> & ->)|(-> & -> & k & ->)];
      revert Hrest; unfold_M; intros [= <- <-]; [right|left];
      (split_and!; try done); cbn; rewrite <- ?app_assoc; cbn;
      rewrite (Nat.add_comm m).
    all: reflexivity.
  - exists (DoPollDevice_report error'). split; [done|].
    split; [apply DoPollDevice_report_prints|]. left.
    injection Hrest as <- <-. split_and!; [done| |].
    + intros k Hk Hst. apply Hne, Hfound. by exists k.
    + rewrite emits_log. cbn [probed log]. by rewrite <- app_assoc.
Qed.

Lemma PollDevice_outcome_witness :
  let this := default_manager in
  let this' := manager_with registry_one in
  let s := power_on in
  let s' := {| rx := []; own_address := None; on_receive := None; on_request := None;
               n_end := 2; n_req := 1; n_millis := 1;
               log := probes bus_one_slave 30 0 1 ++ pull_events 15
                      ++ response_events [LICD_COMMAND_ASSIGN; 0x02] 0 |} in
  ∃ (m : nat) (report : list Event),
    (m ≤ Z.to_nat (LicDeviceManager.m_retry_count this))%nat
    ∧ Forall is_serial_print report
    ∧ ((this' = this
        ∧ (∀ k, (k < m)%nat → status_at bus_one_slave (n_end s + k) ≠ 0)
        ∧ log s' = log s ++ probes bus_one_slave (LicDeviceManager.m_retry_delay this)
                              (n_end s) m
                         ++ report)
       ∨ (this' = this
          ∧ log s' = log s ++ probes bus_one_slave (LicDeviceManager.m_retry_delay this)
                                (n_end s) m
                           ++ pull_events (LicDeviceManager.m_wait_delay this)
                           ++ [EvSerialPrint wait_timeout_message;
                               EvSerialPrint pull_failed_message]
                           ++ response_events [LICD_COMMAND_RETRY]
                                (status_at bus_one_slave (n_end s + m)))
       ∨ (uuid (LicDeviceManager.m_devices this !!! 0%nat) ≤ 0
          ∧ this' = LicDeviceManager.set_devices
                      (<[0%nat := pulled_header bus_one_slave (n_req s)]>
                         (LicDeviceManager.m_devices this)) this
          ∧ log s' = log s ++ probes bus_one_slave (LicDeviceManager.m_retry_delay this)
                                (n_end s) m
                           ++ pull_events (LicDeviceManager.m_wait_delay this)
                           ++ response_events [LICD_COMMAND_ASSIGN; 0x02]
                                (status_at bus_one_slave (n_end s + m)))).
Proof.
  apply (PollDevice_outcome bus_one_slave 9 default_manager power_on).
  - cbn. lia.
  - vm_compute. reflexivity.
Defined.

(** ** The registry over many cycles *)

Section Registry.
Variable bus : Bus.

(** One returning cycle either leaves the manager as it is or fills the
    free slot 0. *)
Lemma PollDevice_step fuel this s this' s' :
  LicDeviceManager.PollDevice bus fuel this s = Some (this', s') →
  this' = this
  ∨ (uuid (LicDeviceManager.m_devices this !!! 0%nat) ≤ 0
     ∧ ∃ header, this' = LicDeviceManager.set_devices
                           (<[0%nat := header]> (LicDeviceManager.m_devices this)) this).
Proof.
  unfold LicDeviceManager.PollDevice. rewrite bind_Some.
  intros ([|] & s1 & _ & Hrest); cbn [negb] in Hrest; [|left; by injection Hrest].
  apply bind_Some in Hrest as ([new_address this2] & s2 & Hreg & Hrest).
  assert (this' = this2) as ->.
  { revert Hrest. unfold_M.
    destruct (LICD_LISTENER_ADDRESS <? new_address); by intros [= <- ?]. }
  apply RegisterDevice_inv in Hreg as [(_ & Hfree & _ & ->)|(_ & _ & -> & _)];
    [right|by left].
  split; [done|]. by eexists.
Qed.

Lemma poll_cycles_keep fuels : ∀ this s this' s',
  poll_cycles bus fuels this s = Some (this', s') → same_but_slot_0 this this'.
Proof.
  induction fuels as [|fuel fuels IH]; intros this s this' s'; cbn [poll_cycles].
  - intros [= <- <-]. by repeat split.
  - rewrite bind_Some. intros (this1 & s1 & Hstep & Hrest).
    apply IH in Hrest as (Hrc & Hrd & Hwd & Hlen & Hslots & Hkeep).
    apply PollDevice_step in Hstep as [->|(Hfree & header & ->)]; [by repeat split|].
    cbn [LicDeviceManager.set_devices LicDeviceManager.m_devices
         LicDeviceManager.m_retry_count LicDeviceManager.m_retry_delay
         LicDeviceManager.m_wait_delay] in *.
    repeat split; try done.
    + by rewrite Hlen, length_insert.
    + intros i Hi. rewrite Hslots by done. apply list_lookup_insert_ne. lia.
    + intros Hocc. lia.
Qed.

End Registry.

Lemma new_manager_registry retry_count retry_delay wait_delay s0 this0 s :
  LicDeviceManager.new retry_count retry_delay wait_delay s0 = Some (this0, s) →
  LicDeviceManager.m_devices this0
  = replicate (Z.to_nat LICD_DEVICE_COUNT) {| uuid := 0; flags := 0 |}.
Proof. unfold LicDeviceManager.new. unfold_M. by intros [= <- _]. Qed.

(** The registry never holds more than one device.  From the constructor
    on, through any number of [PollDevice] calls that return, on any bus:
    the configuration and the 126 slots stay, slots 1..125 stay free, and
    once slot 0 holds a header with a non-zero [uuid] no later cycle that
    returns changes the manager at all. *)
Theorem registry_never_holds_more_than_one_device
    bus retry_count retry_delay wait_delay s0 this0 s fuels this' s' :
  LicDeviceManager.new retry_count retry_delay wait_delay s0 = Some (this0, s) →
  poll_cycles bus fuels this0 s = Some (this', s') →
  same_but_slot_0 this0 this'
  ∧ length (LicDeviceManager.m_devices this') = Z.to_nat LICD_DEVICE_COUNT
  ∧ (∀ i, (0 < i)%nat → uuid (LicDeviceManager.m_devices this' !!! i) = 0)
  ∧ (0 < uuid (LicDeviceManager.m_devices this' !!! 0%nat) →
     ∀ more this'' s'',
       poll_cycles bus more this' s' = Some (this'', s'') → this'' = this').
Proof.
  intros Hnew Hrun. apply new_manager_registry in Hnew.
  pose proof (poll_cycles_keep bus fuels _ _ _ _ Hrun) as Hkeep.
  split; [done|]. destruct Hkeep as (_ & _ & _ & Hlen & Hslots & _).
  rewrite Hnew in Hlen, Hslots.
  split; [by rewrite Hlen, length_replicate|]. split.
  - intros i Hi. rewrite list_lookup_total_alt, Hslots by done.
    destruct (replicate _ _ !! i) as [h|] eqn:Hi'; [|done].
    apply lookup_replicate in Hi' as [-> _]. done.
  - intros Hocc more this'' s'' Hmore.
    by apply (poll_cycles_keep bus more) in Hmore as (_ & _ & _ & _ & _ & ->).
Qed.

Lemma registry_never_holds_more_than_one_device_witness :
  same_but_slot_0 default_manager (manager_with registry_one)
  ∧ length (LicDeviceManager.m_devices (manager_with registry_one))
    = Z.to_nat LICD_DEVICE_COUNT
  ∧ (∀ i, (0 < i)%nat →
       uuid (LicDeviceManager.m_devices (manager_with registry_one) !!! i) = 0)
  ∧ (0 < uuid (LicDeviceManager.m_devices (manager_with registry_one) !!! 0%nat) →
     ∀ more this'' s'',
       poll_cycles bus_one_slave more (manager_with registry_one)
         {| rx := []; own_address := None; on_receive := None; on_request := None;
            n_end := 2; n_req := 1; n_millis := 1;
            log := EvBegin None :: probes bus_one_slave 30 0 1 ++ pull_events 15
                   ++ response_events [LICD_COMMAND_ASSIGN; 0x02] 0 |}
       = Some (this'', s'') →
       this'' = manager_with registry_one).
Proof.
  apply (registry_never_holds_more_than_one_device bus_one_slave 5 30 15 power_on
           default_manager (emit (EvBegin None) power_on) [9%nat]).
  - reflexivity.
  - vm_compute. reflexivity.
Defined.

(** With [retry_count = 0] a poll cycle does nothing at all: no
    transaction, no wait, no diagnostic, and the manager is unchanged. *)
Theorem PollDevice_without_retries_is_silent bus fuel this s :
  LicDeviceManager.m_retry_count this = 0 →
  LicDeviceManager.PollDevice bus (S fuel) this s = Some (this, s).
Proof.
  intros Hzero. unfold LicDeviceManager.PollDevice, LicDeviceManager.DoPollDevice.
  cbn [LicDeviceManager.DoPollDevice_loop]. rewrite Hzero. done.
Qed.

Lemma PollDevice_without_retries_is_silent_witness :
  LicDeviceManager.PollDevice bus_one_slave 1
    {| LicDeviceManager.m_retry_count := 0; LicDeviceManager.m_retry_delay := 30;
       LicDeviceManager.m_wait_delay := 15;
       LicDeviceManager.m_devices := registry_one |} power_on
  = Some ({| LicDeviceManager.m_retry_count := 0; LicDeviceManager.m_retry_delay := 30;
             LicDeviceManager.m_wait_delay := 15;
             LicDeviceManager.m_devices := registry_one |}, power_on).
Proof.
  apply (PollDevice_without_retries_is_silent bus_one_slave 0
           {| LicDeviceManager.m_retry_count := 0; LicDeviceManager.m_retry_delay := 30;
              LicDeviceManager.m_wait_delay := 15;
              LicDeviceManager.m_devices := registry_one |} power_on).
  reflexivity.
Defined.

(** ** The life of a slave *)

Section Lifecycle.

Lemma ReceiveAddress_other_command this byte_count payload s :
  is_ASSIGN payload = false →
  ∃ s', LicDevice.ReceiveAddress this byte_count (set_rx payload s) = Some (this, s')
        ∧ on_receive s' = on_receive s ∧ own_address s' = own_address s.
Proof.
  intros Hother. unfold LicDevice.ReceiveAddress, LicDevice.Create.
  destruct payload as [|c rest]; run; [by eexists|].
  replace (Z.of_nat (S (length rest)) =? 0) with false
    by (symmetry; apply Z.eqb_neq; lia).
  cbn. rewrite !uint8_idemp. cbn in Hother. rewrite Hother.
  destruct (uint8 c =? LICD_COMMAND_UUID); cbn; [by eexists|].
  destruct (uint8 c =? LICD_COMMAND_RETRY); cbn; by eexists.
Qed.

Lemma ReceiveAddress_ASSIGN this byte_count c a rest s :
  uint8 c = LICD_COMMAND_ASSIGN →
  ∃ s', LicDevice.ReceiveAddress this byte_count (set_rx (c :: a :: rest) s)
        = Some ({| LicDevice.m_address := uint8 a;
                   LicDevice.m_receive := LicDevice.m_receive this;
                   LicDevice.m_request := LicDevice.m_request this |}, s')
        ∧ on_receive s' = LicDevice.m_receive this
        ∧ own_address s' = Some (uint8 a)
        ∧ rx s' = rest.
Proof.
  intros Hassign. unfold LicDevice.ReceiveAddress, LicDevice.Create. run.
  replace (Z.of_nat (S (S (length rest))) =? 0) with false
    by (symmetry; apply Z.eqb_neq; lia).
  cbn. rewrite !uint8_idemp, Hassign. cbn. rewrite !uint8_idemp. by eexists.
Qed.

Lemma on_bus_write_other_command this target payload s :
  listening this s → is_ASSIGN payload = false →
  ∃ s', LicDevice.on_bus_write this target payload s = Some (this, s')
        ∧ listening this s' ∧ own_address s' = own_address s.
Proof.
  intros [Hhandler Haddr] Hother. unfold LicDevice.on_bus_write.
  destruct (decide (own_address s = Some target)) as [_|_];
    [|by exists s].
  cbn [set_rx on_receive]. rewrite Hhandler.
  destruct (ReceiveAddress_other_command this (Z.of_nat (length payload)) payload s Hother)
    as (s' & Hrun & Hrcv & Hown).
  exists s'. split; [done|]. split; [|done]. split; [by rewrite Hrcv|done].
Qed.

Lemma session_other_commands writes : ∀ this s,
  listening this s → Forall (λ w, is_ASSIGN w.2 = false) writes →
  ∃ s', LicDevice.session this writes s = Some (this, s')
        ∧ listening this s' ∧ own_address s' = own_address s.
Proof.
  induction writes as [|[target payload] writes IH]; intros this s Hlistening Hall.
  - by exists s.
  - apply Forall_cons_1 in Hall as [Hother Hall]. cbn in Hother.
    destruct (on_bus_write_other_command this target payload s Hlistening Hother)
      as (s1 & Hstep & Hlistening1 & Hown1).
    destruct (IH this s1 Hlistening1 Hall) as (s' & Hrun & Hlistening' & Hown').
    exists s'. cbn [LicDevice.session]. unfold mbind, M_bind. rewrite Hstep.
    split; [done|]. split; [done|]. by rewrite Hown'.
Qed.

Lemma session_app writes1 : ∀ writes2 this s,
  LicDevice.session this (writes1 ++ writes2) s
  = (this ← LicDevice.session this writes1; LicDevice.session this writes2) s.
Proof.
  induction writes1 as [|[target payload] writes1 IH]; intros writes2 this s; [done|].
  cbn [app LicDevice.session]. unfold mbind, M_bind.
  destruct (LicDevice.on_bus_write this target payload s) as [[this1 s1]|]; [|done].
  apply IH.
Qed.

Lemma new_own_address receive_handler request_handler s0 this0 s :
  LicDevice.new receive_handler request_handler s0 = Some (this0, s) →
  own_address s = Some LICD_LISTENER_ADDRESS
  ∧ LicDevice.m_address this0 = LICD_LISTENER_ADDRESS.
Proof.
  unfold LicDevice.new, LicDevice.Create. run. by intros [= <- <-].
Qed.

End Lifecycle.

(** No ASSIGN, no address.  However many bus writes a freshly built device
    sees, as long as none of them starts with the ASSIGN command it stays as
    built: invalid, at the listener address, with the library's receive
    handler registered.  UUID queries, RETRY, unknown commands and empty
    writes change nothing. *)
Theorem device_stays_listening_without_ASSIGN
    receive_handler request_handler s0 this0 s writes :
  LicDevice.new receive_handler request_handler s0 = Some (this0, s) →
  Forall (λ w, is_ASSIGN w.2 = false) writes →
  ∃ s', LicDevice.session this0 writes s = Some (this0, s')
        ∧ LicDevice.GetIsValid this0 = false
        ∧ LicDevice.GetAddress this0 = LICD_LISTENER_ADDRESS
        ∧ own_address s' = Some LICD_LISTENER_ADDRESS
        ∧ on_receive s' = Some fn_ReceiveAddress.
Proof.
  intros Hnew Hall.
  destruct (new_listening _ _ _ _ _ Hnew) as [Hlistening _].
  destruct (new_own_address _ _ _ _ _ Hnew) as [Hown Haddr].
  destruct (session_other_commands writes this0 s Hlistening Hall)
    as (s' & Hrun & [Hhandler _] & Hown').
  exists s'. split; [done|]. unfold LicDevice.GetIsValid, LicDevice.GetAddress.
  rewrite Haddr. split; [done|]. split; [done|]. split; [by rewrite Hown'|done].
Qed.

Lemma device_stays_listening_without_ASSIGN_witness :
  ∃ s', LicDevice.session
          {| LicDevice.m_address := LICD_LISTENER_ADDRESS;
             LicDevice.m_receive := Some (fn_app_receive 0);
             LicDevice.m_request := None |}
          [(0x01, [LICD_COMMAND_UUID]); (0x01, [LICD_COMMAND_RETRY]); (0x01, []);
           (0x01, [0x2A; 0x07]); (0x05, [LICD_COMMAND_UUID])]
          (emits [EvBegin (Some 0x01); EvOnReceive (Some fn_ReceiveAddress);
                  EvOnRequest None]
             {| rx := []; own_address := Some 0x01;
                on_receive := Some fn_ReceiveAddress; on_request := None;
                n_end := 0; n_req := 0; n_millis := 0; log := [] |})
        = Some ({| LicDevice.m_address := LICD_LISTENER_ADDRESS;
                   LicDevice.m_receive := Some (fn_app_receive 0);
                   LicDevice.m_request := None |}, s')
        ∧ LicDevice.GetIsValid
            {| LicDevice.m_address := LICD_LISTENER_ADDRESS;
               LicDevice.m_receive := Some (fn_app_receive 0);
               LicDevice.m_request := None |} = false
        ∧ LicDevice.GetAddress
            {| LicDevice.m_address := LICD_LISTENER_ADDRESS;
               LicDevice.m_receive := Some (fn_app_receive 0);
               LicDevice.m_request := None |} = LICD_LISTENER_ADDRESS
        ∧ own_address s' = Some LICD_LISTENER_ADDRESS
        ∧ on_receive s' = Some fn_ReceiveAddress.
Proof.
  apply (device_stays_listening_without_ASSIGN (Some (fn_app_receive 0)) None power_on).
  - reflexivity.
  - repeat constructor.
Defined.

Lemma session_first_ASSIGN this0 s before c a rest later :
  LicDevice.m_receive this0 ≠ Some fn_ReceiveAddress →
  listening this0 s → own_address s = Some LICD_LISTENER_ADDRESS →
  Forall (λ w, is_ASSIGN w.2 = false) before →
  uint8 c = LICD_COMMAND_ASSIGN →
  ∃ this' s',
    LicDevice.session this0
      (before ++ (LICD_LISTENER_ADDRESS, c :: a :: rest) :: later) s
    = Some (this', s')
    ∧ LicDevice.GetAddress this' = uint8 a
    ∧ LicDevice.GetIsValid this' = (LICD_LISTENER_ADDRESS <? uint8 a).
Proof.
  intros Happ Hlistening Hown Hall Hassign.
  destruct (session_other_commands before this0 s Hlistening Hall)
    as (s1 & Hrun1 & [Hhandler1 _] & Hown1).
  destruct (ReceiveAddress_ASSIGN this0 (Z.of_nat (length (c :: a :: rest))) c a rest s1
              Hassign) as (s2 & Hrun2 & Hhandler2 & _).
  set (this2 := {| LicDevice.m_address := uint8 a;
                   LicDevice.m_receive := LicDevice.m_receive this0;
                   LicDevice.m_request := LicDevice.m_request this0 |}) in *.
  destruct (session_total later this2 s2) as (this3 & s3 & Hrun3 & _ & _ & Hsame).
  { done. }
  { right. unfold released. by rewrite Hhandler2. }
  exists this3, s3. rewrite session_app. unfold mbind at 1, M_bind at 1.
  rewrite Hrun1. cbn [LicDevice.session]. unfold mbind at 1, M_bind at 1.
  assert (LicDevice.on_bus_write this0 LICD_LISTENER_ADDRESS (c :: a :: rest) s1
          = Some (this2, s2)) as ->.
  { unfold LicDevice.on_bus_write. rewrite Hown1, Hown.
    rewrite decide_True by done. cbn [set_rx on_receive]. by rewrite Hhandler1. }
  split; [done|].
  rewrite Hsame by (unfold released; by rewrite Hhandler2). done.
Qed.

(** The first ASSIGN is final.  A freshly built device that has seen no
    ASSIGN yet and then receives, at the listener address, ASSIGN with the
    address byte [a] has address [a] for the rest of the session, whatever
    is written to the bus afterwards.  It is valid exactly when [a > 0x01]:
    ASSIGN with 0x00 or 0x01 leaves it invalid for good. *)
Theorem first_ASSIGN_is_final
    receive_handler request_handler s0 this0 s before c a rest later :
  receive_handler ≠ Some fn_ReceiveAddress →
  LicDevice.new receive_handler request_handler s0 = Some (this0, s) →
  Forall (λ w, is_ASSIGN w.2 = false) before →
  uint8 c = LICD_COMMAND_ASSIGN →
  ∃ this' s',
    LicDevice.session this0
      (before ++ (LICD_LISTENER_ADDRESS, c :: a :: rest) :: later) s
    = Some (this', s')
    ∧ LicDevice.GetAddress this' = uint8 a
    ∧ LicDevice.GetIsValid this' = (LICD_LISTENER_ADDRESS <? uint8 a).
Proof.
  intros Happ Hnew Hall Hassign.
  destruct (new_listening _ _ _ _ _ Hnew) as [Hlistening Hrcv0].
  destruct (new_own_address _ _ _ _ _ Hnew) as [Hown _].
  apply session_first_ASSIGN; try done. by rewrite Hrcv0.
Qed.

Lemma first_ASSIGN_is_final_witness :
  ∃ this' s',
    LicDevice.session
      {| LicDevice.m_address := LICD_LISTENER_ADDRESS;
         LicDevice.m_receive := Some (fn_app_receive 0);
         LicDevice.m_request := None |}
      ([(0x01, [LICD_COMMAND_UUID]); (0x01, [LICD_COMMAND_RETRY])]
       ++ (LICD_LISTENER_ADDRESS, [LICD_COMMAND_ASSIGN; 0x01])
          :: [(0x01, [LICD_COMMAND_ASSIGN; 0x07]); (0x01, [LICD_COMMAND_UUID])])
      (emits [EvBegin (Some 0x01); EvOnReceive (Some fn_ReceiveAddress);
              EvOnRequest None]
         {| rx := []; own_address := Some 0x01;
            on_receive := Some fn_ReceiveAddress; on_request := None;
            n_end := 0; n_req := 0; n_millis := 0; log := [] |})
    = Some (this', s')
    ∧ LicDevice.GetAddress this' = uint8 0x01
    ∧ LicDevice.GetIsValid this' = (LICD_LISTENER_ADDRESS <? uint8 0x01).
Proof.
  apply (first_ASSIGN_is_final (Some (fn_app_receive 0)) None power_on).
  - done.
  - reflexivity.
  - repeat constructor.
  - reflexivity.
Defined.

(** ** Master and slave together *)

Lemma bus_writes_probes bus retry_delay m : ∀ first rest,
  ∃ acks, bus_writes (probes bus retry_delay first m ++ rest) = acks ++ bus_writes rest
          ∧ Forall (λ w, is_ASSIGN w.2 = false) acks.
Proof.
  induction m as [|m IH]; intros first rest.
  - exists []. by split.
  - destruct (IH (S first) rest) as (acks & Hacks & Hall).
    unfold bus_writes, probes in *. cbn [seq flat_map probe_events app bus_writes_from].
    rewrite Hacks. destruct (status_at bus first =? 0).
    + exists ((LICD_LISTENER_ADDRESS, [LICD_COMMAND_UUID]) :: acks).
      split; [done|]. by constructor.
    + by exists acks.
Qed.

(** A cycle that registers, seen from the slave.  When the probe is
    acknowledged, a complete header arrives, slot 0 is free and the closing
    transaction is acknowledged, the bus writes of that cycle, delivered to
    a freshly built listening device, leave the device valid at address
    0x02: the master's ASSIGN is the command and the payload the slave
    decodes, and the earlier UUID queries do not disturb it.  (The header
    bytes are the bus's answer to the request.) *)
Theorem registering_cycle_assigns_the_listening_slave
    bus fuel this s s1 receive_handler request_handler b0 device0 b :
  0 ≤ LicDeviceManager.m_retry_count this < 2 ^ 32 →
  LicDeviceManager.DoPollDevice bus fuel this s = Some (true, s1) →
  (8 < fuel)%nat →
  (8 ≤ length (requestFrom_bytes bus (n_req s1)))%nat →
  uuid (LicDeviceManager.m_devices this !!! 0%nat) ≤ 0 →
  status_at bus (n_end s1) = 0 →
  receive_handler ≠ Some fn_ReceiveAddress →
  LicDevice.new receive_handler request_handler b0 = Some (device0, b) →
  ∃ s' device' b',
    LicDeviceManager.PollDevice bus fuel this s
      = Some (LicDeviceManager.set_devices
                (<[0%nat := pulled_header bus (n_req s1)]>
                   (LicDeviceManager.m_devices this)) this, s')
    ∧ LicDevice.session device0 (bus_writes (logged_since s s')) b
      = Some (device', b')
    ∧ LicDevice.GetAddress device' = 0x02
    ∧ LicDevice.GetIsValid device' = true.
Proof.
  intros Hrange Hprobe Hfuel Hlen Hfree Hack Happ Hnew.
  pose proof Hprobe as Hinv.
  apply DoPollDevice_inv in Hinv as (m & error' & Hfound & Hs1 & _); [|done].
  symmetry in Hfound. apply Z.eqb_eq in Hfound as ->.
  change (DoPollDevice_report 0) with (@nil Event) in Hs1. cbn [emits foldl] in Hs1.
  destruct (new_listening _ _ _ _ _ Hnew) as [Hlistening Hrcv0].
  destruct (new_own_address _ _ _ _ _ Hnew) as [Hown _].
  destruct (bus_writes_probes bus (LicDeviceManager.m_retry_delay this) m (n_end s)
              (pull_events (LicDeviceManager.m_wait_delay this)
               ++ response_events [LICD_COMMAND_ASSIGN; 0x02] 0))
    as (acks & Hacks & Hall).
  destruct (session_first_ASSIGN device0 b acks LICD_COMMAND_ASSIGN 0x02 [] [])
    as (device' & b' & Hsession & Haddr & Hvalid); [by rewrite Hrcv0|done..|].
  eexists _, device', b'. split.
  { unfold LicDeviceManager.PollDevice. unfold mbind at 1, M_bind at 1.
    rewrite Hprobe. cbn [negb]. unfold mbind at 1, M_bind at 1.
    rewrite RegisterDevice_registers by done. reflexivity. }
  split; [|done].
  rewrite <- Hsession. f_equal.
  change (bus_writes (pull_events (LicDeviceManager.m_wait_delay this)
                      ++ response_events [LICD_COMMAND_ASSIGN; 0x02] 0))
    with [(LICD_LISTENER_ADDRESS, [LICD_COMMAND_ASSIGN; 0x02])] in Hacks.
  rewrite <- Hacks. f_equal.
  unfold logged_since. rewrite Hs1 in *.
  unfold status_at in Hack. cbn in Hack. cbn. rewrite Hack.
  rewrite <- !app_assoc. by rewrite drop_app_length.
Qed.

Lemma registering_cycle_assigns_the_listening_slave_witness :
  ∃ s' device' b',
    LicDeviceManager.PollDevice bus_one_slave 9 default_manager power_on
      = Some (manager_with registry_one, s')
    ∧ LicDevice.session
        {| LicDevice.m_address := LICD_LISTENER_ADDRESS;
           LicDevice.m_receive := Some (fn_app_receive 0);
           LicDevice.m_request := None |}
        (bus_writes (logged_since power_on s'))
        (emits [EvBegin (Some 0x01); EvOnReceive (Some fn_ReceiveAddress);
                EvOnRequest None]
           {| rx := []; own_address := Some 0x01;
              on_receive := Some fn_ReceiveAddress; on_request := None;
              n_end := 0; n_req := 0; n_millis := 0; log := [] |})
      = Some (device', b')
    ∧ LicDevice.GetAddress device' = 0x02
    ∧ LicDevice.GetIsValid device' = true.
Proof.
  apply (registering_cycle_assigns_the_listening_slave bus_one_slave 9 default_manager
           power_on
           {| rx := []; own_address := None; on_receive := None; on_request := None;
              n_end := 1; n_req := 0; n_millis := 0;
              log := probes bus_one_slave 30 0 1 |}
           (Some (fn_app_receive 0)) None power_on).
  - cbn. lia.
  - vm_compute. reflexivity.
  - lia.
  - cbn. lia.
  - cbn. lia.
  - reflexivity.
  - done.
  - reflexivity.
Defined.

(** ** When a poll cycle returns *)

(** With slot 0 free a poll cycle always returns, on every bus, as long as
    the clock moves: if from every clock reading on some later reading is
    more than 150 ms ahead, there is fuel with which [PollDevice] returns.
    (With slot 0 occupied it returns only when the probe or the pull
    fails.) *)
Theorem PollDevice_returns_when_slot_0_is_free bus this s :
  0 ≤ LicDeviceManager.m_retry_count this < 2 ^ 32 →
  uuid (LicDeviceManager.m_devices this !!! 0%nat) ≤ 0 →
  (∀ n, ∃ j, 150 < uint64 (uint32 (millis_at bus (S j + n)) - uint32 (millis_at bus n))) →
  ∃ fuel this' s', LicDeviceManager.PollDevice bus fuel this s = Some (this', s').
Proof.
  intros Hrange Hfree Hclock.
  set (r := S (Z.to_nat (LicDeviceManager.m_retry_count this))).
  destruct (DoPollDevice_run bus this Hrange r s) as (m & error' & Hprobe & _); [lia|].
  set (s1 := emits (DoPollDevice_report error')
               (probed bus (LicDeviceManager.m_retry_delay this) m s)) in *.
  destruct (error' =? 0) eqn:Hfound.
  - destruct (decide (8 ≤ length (requestFrom_bytes bus (n_req s1)))%nat) as [Hlen|Hshort].
    + exists (Nat.max r 9). eexists _, _.
      apply (DoPollDevice_monotone bus this r (Nat.max r 9)) in Hprobe; [|lia].
      unfold LicDeviceManager.PollDevice. unfold mbind at 1, M_bind at 1.
      rewrite Hprobe. cbn [negb]. unfold mbind at 1, M_bind at 1.
      rewrite RegisterDevice_registers by (done || lia). reflexivity.
    + destruct (Hclock (n_millis s1)) as [j Hj].
      destruct (RegisterDevice_gives_up bus (Nat.max r (S j)) this s1 j) as [k Hk];
        [lia|lia|done|].
      exists (Nat.max r (S j)). eexists _, _.
      apply (DoPollDevice_monotone bus this r (Nat.max r (S j))) in Hprobe; [|lia].
      unfold LicDeviceManager.PollDevice. unfold mbind at 1, M_bind at 1.
      rewrite Hprobe. cbn [negb]. unfold mbind at 1, M_bind at 1.
      rewrite Hk. reflexivity.
  - exists r, this, s1.
    unfold LicDeviceManager.PollDevice. unfold mbind at 1, M_bind at 1.
    by rewrite Hprobe.
Qed.

Lemma PollDevice_returns_when_slot_0_is_free_witness :
  ∃ fuel this' s',
    LicDeviceManager.PollDevice bus_short_answer fuel default_manager power_on
    = Some (this', s').
Proof.
  apply (PollDevice_returns_when_slot_0_is_free bus_short_answer default_manager power_on).
  - cbn. lia.
  - cbn. lia.
  - intros n. exists 1%nat.
    change (millis_at bus_short_answer) with slow_clock.
    unfold slow_clock, uint64, uint32.
    change (2 ^ 64) with 18446744073709551616. change (2 ^ 32) with 4294967296.
    Z.div_mod_to_equations. lia.
Defined.
